(** * Dradis MCP bridge: field-block codec, record merge and session state

    A shallow embedding of [src/dradis_mcp/api.py] and
    [src/dradis_mcp/server.py], followed by the properties of the
    field-block encoder, of the read-modify-write merges and of the
    active-project selector.

    Conventions.
    - A Python [str] is a Rocq [string]; a character stands for a code
      point below 256.
    - A Python [dict] with string keys is an association list in
      insertion order: assigning to an existing key keeps its position,
      assigning to a new key appends.
    - Code that raises is a computation in a state-and-exception monad
      over the session; an exception leaves the session as it was when
      it was raised. *)

From Stdlib Require Import ZArith String Ascii List Bool Lia DecimalString.
Import ListNotations.

#[local] Open Scope list_scope.
#[local] Open Scope string_scope.

(* ===================================================================== *)
(** * Python values *)
(* ===================================================================== *)

Module Py.

(** The values that reach this program: tool arguments and decoded JSON.
    A float is kept as the text [repr] gives for it. *)
#[warnings="-register-all"] Inductive pyval : Type :=
| PNone
| PBool (b : bool)
| PInt (z : Z)
| PFloat (text : string)
| PStr (s : string)
| PList (l : list pyval)
| PDict (d : list (string * pyval)).

(** [Dict[str, Any]] *)
Definition dict : Type := list (string * pyval).

Definition CR : ascii := ascii_of_nat 13.
Definition LF : ascii := ascii_of_nat 10.
Definition TAB : ascii := ascii_of_nat 9.
Definition QUOTE : ascii := ascii_of_nat 39.
Definition DQUOTE : ascii := ascii_of_nat 34.
Definition BACKSLASH : ascii := ascii_of_nat 92.

(** ["\r\n"] *)
Definition CRLF : string := String CR (String LF EmptyString).

Definition is_none (v : pyval) : bool :=
  match v with PNone => true | _ => false end.

(** [isinstance(v, str)] *)
Definition isinstance_str (v : pyval) : bool :=
  match v with PStr _ => true | _ => false end.

(** Truth value of a [str]: non-empty. *)
Definition str_truthy (s : string) : bool :=
  match s with EmptyString => false | String _ _ => true end.

(** Truth value of an [Optional[int]]: [None] and [0] are false. *)
Definition optint_truthy (o : option Z) : bool :=
  match o with None => false | Some z => negb (z =? 0)%Z end.

(** ** [str.strip] *)

(** [str.isspace] on one character (code points below 256). *)
Definition is_space (c : ascii) : bool :=
  let n := nat_of_ascii c in
  ((9 <=? n) && (n <=? 13) || (28 <=? n) && (n <=? 32)
   || (n =? 133) || (n =? 160))%nat.

Fixpoint lstrip (s : string) : string :=
  match s with
  | EmptyString => EmptyString
  | String c s' => if is_space c then lstrip s' else s
  end.

Fixpoint rstrip (s : string) : string :=
  match s with
  | EmptyString => EmptyString
  | String c s' =>
      match rstrip s' with
      | EmptyString => if is_space c then EmptyString else String c EmptyString
      | r => String c r
      end
  end.

Definition strip (s : string) : string := rstrip (lstrip s).

(** ** [str] and [repr] *)

Definition str_of_int (z : Z) : string := NilZero.string_of_int (Z.to_int z).

Fixpoint mem_char (c : ascii) (s : string) : bool :=
  match s with
  | EmptyString => false
  | String a s' => Ascii.eqb a c || mem_char c s'
  end.

Definition hex_digit (n : nat) : ascii :=
  ascii_of_nat (if (n <? 10)%nat then 48 + n else 87 + n).

(** Characters [repr] shows as they are. *)
Definition is_printable (c : ascii) : bool :=
  let n := nat_of_ascii c in
  ((32 <=? n) && (n <? 127) || (161 <=? n) && negb (n =? 173))%nat.

Definition repr_char (quote c : ascii) : string :=
  if Ascii.eqb c quote || Ascii.eqb c BACKSLASH then String BACKSLASH (String c EmptyString)
  else if Ascii.eqb c TAB then "\t"
  else if Ascii.eqb c LF then "\n"
  else if Ascii.eqb c CR then "\r"
  else if is_printable c then String c EmptyString
  else "\x" ++ String (hex_digit (nat_of_ascii c / 16))
                 (String (hex_digit (nat_of_ascii c mod 16)) EmptyString).

Fixpoint repr_chars (quote : ascii) (s : string) : string :=
  match s with
  | EmptyString => EmptyString
  | String c s' => repr_char quote c ++ repr_chars quote s'
  end.

(** [repr] of a [str]: single quotes, unless the text has a single quote
    and no double quote. *)
Definition repr_str (s : string) : string :=
  let quote := if mem_char QUOTE s && negb (mem_char DQUOTE s) then DQUOTE else QUOTE in
  String quote (repr_chars quote s ++ String quote EmptyString).

Fixpoint py_repr (v : pyval) : string :=
  match v with
  | PNone => "None"
  | PBool true => "True"
  | PBool false => "False"
  | PInt z => str_of_int z
  | PFloat text => text
  | PStr s => repr_str s
  | PList l => "[" ++ String.concat ", " (map py_repr l) ++ "]"
  | PDict d =>
      "{" ++ String.concat ", "
               (map (fun kv => repr_str (fst kv) ++ ": " ++ py_repr (snd kv)) d)
          ++ "}"
  end.

(** [str(v)], which is also what an f-string writes for [{v}]. *)
Definition py_str (v : pyval) : string :=
  match v with
  | PStr s => s
  | _ => py_repr v
  end.

(** ** Dictionaries *)

(** [d.get(k)]: [None] stands for an absent key. *)
Fixpoint dict_get (k : string) (d : dict) : option pyval :=
  match d with
  | [] => None
  | (k', v) :: d' => if String.eqb k k' then Some v else dict_get k d'
  end.

(** [k in d] *)
Definition dict_mem (k : string) (d : dict) : bool :=
  match dict_get k d with Some _ => true | None => false end.

(** [d[k] = v] *)
Fixpoint dict_set (k : string) (v : pyval) (d : dict) : dict :=
  match d with
  | [] => [(k, v)]
  | (k', v') :: d' =>
      if String.eqb k k' then (k', v) :: d' else (k', v') :: dict_set k v d'
  end.

Definition keys (d : dict) : list string := map fst d.

(** A well-formed [dict] has each key once. *)
Definition wf_dict (d : dict) : Prop := NoDup (keys d).

End Py.
Import Py.

(* ===================================================================== *)
(** * Field-block codec and merges ([api.py]) *)
(* ===================================================================== *)

Module Codec.

(** One turn of the loop body of [_construct_dradis_response]:
    [f"#[{key}]#\r\n{value}\r\n\r\n"]. *)
Definition field_block (key : string) (value : pyval) : string :=
  "#[" ++ key ++ "]#" ++ CRLF ++ py_str value ++ CRLF ++ CRLF.

(** [DradisAPI._construct_dradis_response] *)
Definition _construct_dradis_response (data : dict) : string :=
  fold_left (fun construction kv => construction ++ field_block (fst kv) (snd kv))
            data EmptyString.

(** The test of the update loop of [DradisAPI.update_vulnerability]:
    [isinstance(value, str) and value.strip() or value is not None],
    which Python reads as [(A and B) or C]. *)
Definition update_test (value : pyval) : bool :=
  (isinstance_str value
   && match value with PStr s => str_truthy (strip s) | _ => false end)
  || negb (is_none value).

(** Lines 211-214 of [DradisAPI.update_vulnerability]: copy the fetched
    record, then assign every update value that passes the test. *)
Definition merge_vulnerability (current_vuln vulnerability : dict) : dict :=
  fold_left (fun updated_vulnerability kv =>
               if update_test (snd kv)
               then dict_set (fst kv) (snd kv) updated_vulnerability
               else updated_vulnerability)
            vulnerability current_vuln.

(** Lines 260-262 of [DradisAPI.update_content_block]. *)
Definition merge_content_block (fields content : dict) : dict :=
  fold_left (fun fields kv =>
               if isinstance_str (snd kv)
               then dict_set (fst kv) (snd kv) fields
               else fields)
            content fields.

(** The comprehension of the [create_vulnerability] and
    [update_vulnerability] tools:
    [{k: str(v) for k, v in kwargs.items() if v is not None}]. *)
Definition stringify_kwargs (kwargs : dict) : dict :=
  map (fun kv => (fst kv, PStr (py_str (snd kv))))
      (filter (fun kv => negb (is_none (snd kv))) kwargs).

End Codec.
Import Codec.

(* ===================================================================== *)
(** * Exceptions, the wire and the session *)
(* ===================================================================== *)

Module Run.

Inductive exn : Type :=
| ValueError (msg : string)
| HTTPStatusError (status_code : Z) (url : string)
| NetworkError (url : string)   (* [Exception("Network error while accessing ...")] *)
| ValidationError               (* pydantic *)
| KeyError (key : string)
| TypeError
| AttributeError.

Inductive outcome (A : Type) : Type :=
| Ok (a : A)
| Raise (e : exn).
Arguments Ok {A} a.
Arguments Raise {A} e.

Inductive method : Type := GET | POST | PUT.

(** What [_request] hands to [httpx]: the headers it adds itself and the
    [json=] keyword. *)
Record request : Type := mkRequest {
  req_method : method;
  req_url : string;
  req_headers : list (string * string);
  req_json : option pyval
}.

(** What comes back: the client call raised, or a response with its
    status code and, when the body parses, [response.json()]. *)
Inductive http_reply : Type :=
| ConnectionFailed
| Response (status_code : Z) (json : option pyval).

(** [response.is_success] *)
Definition is_success (status_code : Z) : bool :=
  ((200 <=? status_code) && (status_code <=? 299))%Z.

(** [config.DradisConfig] (the settings after validation) *)
Record DradisConfig : Type := mkConfig {
  dradis_url : string;
  dradis_api_token : string;
  dradis_default_team_id : option Z;
  dradis_default_template_id : option Z;
  dradis_default_template : option string;
  dradis_vulnerability_parameters : list string
}.

(** [api.DradisAPI]: the fields [__init__] sets. *)
Record DradisAPI : Type := mkAPI {
  api_token : string;
  base_url : string
}.

Definition DradisAPI_init (config : DradisConfig) : DradisAPI :=
  {| api_token := dradis_api_token config; base_url := dradis_url config |}.

(** The module-level [server_state] of [server.py]. *)
Record ServerState : Type := mkState {
  project_id : option Z;
  config : option DradisConfig;
  api : option DradisAPI
}.

(** The session and the requests issued so far, oldest first. *)
Record world : Type := mkWorld {
  server_state : ServerState;
  wire : list request
}.

Definition M (A : Type) : Type := world -> outcome A * world.

Definition ret {A} (a : A) : M A := fun w => (Ok a, w).
Definition raise {A} (e : exn) : M A := fun w => (Raise e, w).
Definition bind {A B} (c : M A) (k : A -> M B) : M B :=
  fun w => match c w with
           | (Ok a, w') => k a w'
           | (Raise e, w') => (Raise e, w')
           end.
Definition lift {A} (o : outcome A) : M A := fun w => (o, w).

Declare Scope run_scope.
Delimit Scope run_scope with run.
Notation "x <- c ;; k" := (bind c (fun x => k))
  (at level 61, c at next level, right associativity) : run_scope.
Notation "c ;;; k" := (bind c (fun _ => k))
  (at level 61, right associativity) : run_scope.
#[local] Open Scope run_scope.

Fixpoint mapM {A B} (f : A -> M B) (l : list A) : M (list B) :=
  match l with
  | [] => ret []
  | a :: l' => b <- f a ;; bs <- mapM f l' ;; ret (b :: bs)
  end.

Definition read_state : M ServerState := fun w => (Ok (server_state w), w).

(** [server_state["project_id"] = p] *)
Definition write_project_id (p : Z) : M unit :=
  fun w => (Ok tt,
            {| server_state := {| project_id := Some p;
                                  config := config (server_state w);
                                  api := api (server_state w) |};
               wire := wire w |}).

(** ** Subscripts, iteration and membership on decoded JSON *)

(** [v[k]] for a [str] key *)
Definition py_getitem (v : pyval) (k : string) : outcome pyval :=
  match v with
  | PDict d => match dict_get k d with Some x => Ok x | None => Raise (KeyError k) end
  | _ => Raise TypeError
  end.

(** [v.get(k, default)] *)
Definition py_get (v : pyval) (k : string) (default : pyval) : outcome pyval :=
  match v with
  | PDict d => Ok (match dict_get k d with Some x => x | None => default end)
  | _ => Raise AttributeError
  end.

(** [v.items()] *)
Definition py_items (v : pyval) : outcome dict :=
  match v with
  | PDict d => Ok d
  | _ => Raise AttributeError
  end.

Fixpoint chars (s : string) : list pyval :=
  match s with
  | EmptyString => []
  | String c s' => PStr (String c EmptyString) :: chars s'
  end.

(** [for x in v] *)
Definition py_iter (v : pyval) : outcome (list pyval) :=
  match v with
  | PList l => Ok l
  | PDict d => Ok (map PStr (keys d))
  | PStr s => Ok (chars s)
  | _ => Raise TypeError
  end.

Fixpoint is_substring (sub s : string) : bool :=
  String.prefix sub s
  || match s with
     | EmptyString => false
     | String _ s' => is_substring sub s'
     end.

(** [k in v] for a [str] [k] *)
Definition py_in (k : string) (v : pyval) : outcome bool :=
  match v with
  | PDict d => Ok (dict_mem k d)
  | PList l => Ok (existsb (fun x => match x with PStr s => String.eqb s k | _ => false end) l)
  | PStr s => Ok (is_substring k s)
  | _ => Raise TypeError
  end.

End Run.
Import Run.
#[local] Open Scope run_scope.

(* ===================================================================== *)
(** * Pydantic models ([types.py]) *)
(* ===================================================================== *)

Module Types.

Record Client : Type := mkClient { client_id : Z; client_name : string }.
Record User : Type := mkUser { email : string }.
Record CustomField : Type := mkCustomField { cf_id : Z; cf_name : string; cf_value : string }.
Record ProjectCreationState : Type := mkCreation { state : string }.

Record ProjectDetails : Type := mkProject {
  pd_id : Z;
  pd_name : string;
  pd_client : Client;
  pd_project_creation : option ProjectCreationState;
  pd_created_at : string;
  pd_updated_at : string;
  pd_authors : list User;
  pd_owners : list User;
  pd_custom_fields : option (list CustomField)
}.

Record CreateProject : Type := mkCreateProject {
  cp_name : string;
  cp_team_id : Z;
  cp_report_template_properties_id : option Z;
  cp_author_ids : option (list Z);
  cp_template : option string
}.

Record Vulnerability : Type := mkVulnerability {
  v_id : Z;
  v_author : string;
  v_title : string;
  v_fields : dict;
  v_text : string;
  v_created_at : string;
  v_updated_at : string
}.

Record VulnerabilityListItem : Type := mkListItem {
  li_id : Z;
  li_title : string;
  li_fields : dict
}.

Record ContentBlock : Type := mkContentBlock {
  cb_id : Z;
  cb_author : string;
  cb_block_group : string;
  cb_title : string;
  cb_fields : dict;
  cb_content : string
}.

Record UpdateContentBlock : Type := mkUpdateContentBlock {
  ucb_block_group : string;
  ucb_content : dict
}.

(** ** [model_dump] *)

Definition opt_dump {A} (f : A -> pyval) (o : option A) : pyval :=
  match o with Some a => f a | None => PNone end.

Definition dump_User (u : User) : pyval := PDict [("email", PStr (email u))].

Definition dump_CustomField (c : CustomField) : pyval :=
  PDict [("id", PInt (cf_id c)); ("name", PStr (cf_name c)); ("value", PStr (cf_value c))].

Definition dump_ProjectDetails (p : ProjectDetails) : pyval :=
  PDict [("id", PInt (pd_id p));
         ("name", PStr (pd_name p));
         ("client", PDict [("id", PInt (client_id (pd_client p)));
                           ("name", PStr (client_name (pd_client p)))]);
         ("project_creation",
          opt_dump (fun c => PDict [("state", PStr (state c))]) (pd_project_creation p));
         ("created_at", PStr (pd_created_at p));
         ("updated_at", PStr (pd_updated_at p));
         ("authors", PList (map dump_User (pd_authors p)));
         ("owners", PList (map dump_User (pd_owners p)));
         ("custom_fields",
          opt_dump (fun l => PList (map dump_CustomField l)) (pd_custom_fields p))].

Definition dump_CreateProject (c : CreateProject) : pyval :=
  PDict [("name", PStr (cp_name c));
         ("team_id", PInt (cp_team_id c));
         ("report_template_properties_id", opt_dump PInt (cp_report_template_properties_id c));
         ("author_ids", opt_dump (fun l => PList (map PInt l)) (cp_author_ids c));
         ("template", opt_dump PStr (cp_template c))].

Definition dump_Vulnerability (v : Vulnerability) : pyval :=
  PDict [("id", PInt (v_id v));
         ("author", PStr (v_author v));
         ("title", PStr (v_title v));
         ("fields", PDict (v_fields v));
         ("text", PStr (v_text v));
         ("created_at", PStr (v_created_at v));
         ("updated_at", PStr (v_updated_at v))].

Definition dump_VulnerabilityListItem (i : VulnerabilityListItem) : pyval :=
  PDict [("id", PInt (li_id i)); ("title", PStr (li_title i)); ("fields", PDict (li_fields i))].

Definition dump_ContentBlock (b : ContentBlock) : pyval :=
  PDict [("id", PInt (cb_id b));
         ("author", PStr (cb_author b));
         ("block_group", PStr (cb_block_group b));
         ("title", PStr (cb_title b));
         ("fields", PDict (cb_fields b));
         ("content", PStr (cb_content b))].

(** [UpdateContentBlock(block_group=..., content=...)]: [content] is a
    [Dict[str, str]] with [min_length=1]. *)
Definition new_UpdateContentBlock (block_group : string) (content : dict)
  : outcome UpdateContentBlock :=
  match content with
  | [] => Raise ValidationError
  | _ :: _ =>
      if forallb (fun kv => isinstance_str (snd kv)) content
      then Ok {| ucb_block_group := block_group; ucb_content := content |}
      else Raise ValidationError
  end.

(** Validation of a response against a model is pydantic's; the models
    built from upstream data take it as given. *)
Record Pydantic : Type := mkPydantic {
  validate_ProjectDetails : dict -> option ProjectDetails;
  validate_Vulnerability : dict -> option Vulnerability;
  validate_VulnerabilityListItem : dict -> option VulnerabilityListItem;
  validate_ContentBlock : dict -> option ContentBlock
}.

(** Building a model from the keywords of a response mapping. *)
Definition construct {A} (validate : dict -> option A) (response : pyval) : outcome A :=
  match response with
  | PDict d => match validate d with Some m => Ok m | None => Raise ValidationError end
  | _ => Raise TypeError
  end.

End Types.
Import Types.

(* ===================================================================== *)
(** * The API client ([api.py], class [DradisAPI]) *)
(* ===================================================================== *)

Module Api.
Section Client.

(** The upstream platform as seen through [httpx]: the reply to a request,
    given the requests that came before it. *)
Context (transport : list request -> request -> http_reply).
Context (pydantic : Pydantic).

Definition _request (self : DradisAPI) (method_ : method) (endpoint : string)
    (project_id : option Z) (json : option pyval) : M pyval :=
  fun w =>
    let url := base_url self ++ endpoint in
    let headers :=
      match project_id with
      | Some p => [("Dradis-Project-Id", str_of_int p)]
      | None => []
      end in
    let req := mkRequest method_ url headers json in
    let w' := {| server_state := server_state w; wire := (wire w ++ [req])%list |} in
    match transport (wire w) req with
    | ConnectionFailed => (Raise (NetworkError url), w')
    | Response status_code body =>
        if is_success status_code then
          match body with
          | Some j => (Ok j, w')
          | None => (Raise (NetworkError url), w')
          end
        else (Raise (HTTPStatusError status_code url), w')
    end.

Definition get_project_details (self : DradisAPI) (project_id : Z) : M ProjectDetails :=
  response <- _request self GET ("/pro/api/projects/" ++ str_of_int project_id) None None ;;
  lift (construct (validate_ProjectDetails pydantic) response).

Definition create_project (self : DradisAPI) (project : CreateProject) : M ProjectDetails :=
  response <- _request self POST "/pro/api/projects" None
                (Some (PDict [("project", dump_CreateProject project)])) ;;
  lift (construct (validate_ProjectDetails pydantic) response).

Definition issues_endpoint (page : option Z) : string :=
  "/pro/api/issues"
  ++ (if optint_truthy page then "?page=" ++ py_str (opt_dump PInt page) else EmptyString).

Definition list_item (d : dict) : outcome VulnerabilityListItem :=
  match validate_VulnerabilityListItem pydantic d with
  | Some i => Ok i
  | None => Raise ValidationError
  end.

Definition get_vulnerabilities (self : DradisAPI) (project_id : Z) (page : option Z)
  : M (list VulnerabilityListItem) :=
  response <- _request self GET (issues_endpoint page) (Some project_id) None ;;
  vulns <- lift (py_iter response) ;;
  mapM (fun vuln =>
          id <- lift (py_getitem vuln "id") ;;
          title <- lift (py_getitem vuln "title") ;;
          fields <- lift (py_getitem vuln "fields") ;;
          rating <- lift (py_get fields "Rating" (PStr EmptyString)) ;;
          lift (list_item [("id", id); ("title", title);
                           ("fields", PDict [("Rating", rating)])]))
       vulns.

Definition get_all_vulnerability_details (self : DradisAPI) (project_id : Z)
    (page : option Z) : M (list VulnerabilityListItem) :=
  response <- _request self GET (issues_endpoint page) (Some project_id) None ;;
  vulns <- lift (py_iter response) ;;
  mapM (fun vuln =>
          id <- lift (py_getitem vuln "id") ;;
          title <- lift (py_getitem vuln "title") ;;
          fields <- lift (py_getitem vuln "fields") ;;
          lift (list_item [("id", id); ("title", title); ("fields", fields)]))
       vulns.

Definition get_vulnerability (self : DradisAPI) (project_id vulnerability_id : Z) : M dict :=
  response <- _request self GET ("/pro/api/issues/" ++ str_of_int vulnerability_id)
                (Some project_id) None ;;
  id <- lift (py_getitem response "id") ;;
  author <- lift (py_getitem response "author") ;;
  fields <- lift (py_getitem response "fields") ;;
  items <- lift (py_items fields) ;;
  ret (fold_left (fun construction kv => dict_set (fst kv) (snd kv) construction)
                 items [("id", id); ("author", author)]).

Definition create_vulnerability (self : DradisAPI) (project_id : Z) (vulnerability : dict)
  : M Vulnerability :=
  let compiled_vulnerability := _construct_dradis_response vulnerability in
  response <- _request self POST "/pro/api/issues" (Some project_id)
                (Some (PDict [("issue", PDict [("text", PStr compiled_vulnerability)])])) ;;
  lift (construct (validate_Vulnerability pydantic) response).

Definition update_vulnerability (self : DradisAPI) (project_id issue_id : Z)
    (vulnerability : dict) : M Vulnerability :=
  current_vuln <- get_vulnerability self project_id issue_id ;;
  let updated_vulnerability := merge_vulnerability current_vuln vulnerability in
  let dradis_construct := _construct_dradis_response updated_vulnerability in
  response <- _request self PUT ("/pro/api/issues/" ++ str_of_int issue_id)
                (Some project_id)
                (Some (PDict [("issue", PDict [("text", PStr dradis_construct)])])) ;;
  lift (construct (validate_Vulnerability pydantic) response).

Definition get_content_blocks (self : DradisAPI) (project_id : Z) : M (list pyval) :=
  response <- _request self GET "/pro/api/content_blocks" (Some project_id) None ;;
  blocks <- lift (py_iter response) ;;
  mapM (fun block =>
          id <- lift (py_getitem block "id") ;;
          fields <- lift (py_getitem block "fields") ;;
          ret (PDict [("id", id); ("fields", fields)]))
       blocks.

Definition get_content_block (self : DradisAPI) (project_id block_id : Z) : M ContentBlock :=
  response <- _request self GET ("/pro/api/content_blocks/" ++ str_of_int block_id)
                (Some project_id) None ;;
  lift (construct (validate_ContentBlock pydantic) response).

Definition update_content_block (self : DradisAPI) (project_id block_id : Z)
    (content_block : UpdateContentBlock) : M ContentBlock :=
  current_block <- get_content_block self project_id block_id ;;
  let fields := merge_content_block (cb_fields current_block) (ucb_content content_block) in
  let dradis_construct := _construct_dradis_response fields in
  response <- _request self PUT ("/pro/api/content_blocks/" ++ str_of_int block_id)
                (Some project_id)
                (Some (PDict [("content_block",
                               PDict [("block_group", PStr (ucb_block_group content_block));
                                      ("content", PStr dradis_construct)])])) ;;
  lift (construct (validate_ContentBlock pydantic) response).

Definition get_document_properties (self : DradisAPI) (project_id : Z) : M pyval :=
  _request self GET "/pro/api/document_properties" (Some project_id) None.

(** [any(property_name in prop and prop[property_name] is not None
         for prop in doc_properties)], left to right, stopping at the
    first true element. *)
Fixpoint property_exists (property_name : string) (doc_properties : list pyval)
  : outcome bool :=
  match doc_properties with
  | [] => Ok false
  | prop :: rest =>
      match py_in property_name prop with
      | Raise e => Raise e
      | Ok false => property_exists property_name rest
      | Ok true =>
          match py_getitem prop property_name with
          | Raise e => Raise e
          | Ok v => if negb (is_none v) then Ok true
                    else property_exists property_name rest
          end
      end
  end.

Definition upsert_document_property (self : DradisAPI) (project_id : Z)
    (property_name value : string) : M pyval :=
  doc_properties <- get_document_properties self project_id ;;
  props <- lift (py_iter doc_properties) ;;
  exists_ <- lift (property_exists property_name props) ;;
  if (exists_ : bool) then
    _request self PUT ("/pro/api/document_properties/" ++ property_name)
      (Some project_id)
      (Some (PDict [("document_property", PDict [("value", PStr value)])]))
  else
    _request self POST "/pro/api/document_properties" (Some project_id)
      (Some (PDict [("document_properties", PDict [(property_name, PStr value)])])).

End Client.
End Api.

(* ===================================================================== *)
(** * The tools ([server.py]) *)
(* ===================================================================== *)

Module Server.

Definition NO_PROJECT : string :=
  "No project ID set. Use set_project or create_project first.".

Inductive tool_call : Type :=
| Call_set_project (project_id : Z)
| Call_get_project_details
| Call_create_project (name : string) (team_id report_template_properties_id : option Z)
    (author_ids : option (list Z)) (template : option string)
| Call_create_vulnerability (kwargs : dict)
| Call_get_vulnerabilities (page : option Z)
| Call_get_all_vulnerability_details (page : option Z)
| Call_get_vulnerability (vulnerability_id : Z)
| Call_update_vulnerability (issue_id : Z) (kwargs : dict)
| Call_get_content_blocks
| Call_update_content_block (block_id : Z) (block_group : string) (content : dict)
| Call_get_document_properties
| Call_upsert_document_property (property_name value : string).

(** The tools that work on the active project. *)
Definition project_scoped (c : tool_call) : bool :=
  match c with
  | Call_set_project _ | Call_create_project _ _ _ _ _ => false
  | _ => true
  end.

Section Tools.

Context (transport : list request -> request -> http_reply).
Context (pydantic : Pydantic).
(** [json.dumps(data, indent=2, default=str)] *)
Context (json_dumps : pyval -> string).

Definition format_response (data : pyval) : string := json_dumps data.

Definition get_api : M DradisAPI :=
  st <- read_state ;;
  match api st with
  | Some a => ret a
  | None => raise (ValueError "API not initialized. Check your configuration.")
  end.

Definition get_config : M DradisConfig :=
  st <- read_state ;;
  match config st with
  | Some c => ret c
  | None => raise (ValueError "Configuration not loaded.")
  end.

(** The lines every project-scoped tool opens with:
    [project_id = server_state.get("project_id")] and
    [if not project_id: raise ValueError(...)]. *)
Definition require_project : M Z :=
  st <- read_state ;;
  if negb (optint_truthy (project_id st)) then raise (ValueError NO_PROJECT)
  else match project_id st with
       | Some p => ret p
       | None => raise (ValueError NO_PROJECT)
       end.

Definition set_project (project_id : Z) : M string :=
  api <- get_api ;;
  Api.get_project_details transport pydantic api project_id ;;;
  write_project_id project_id ;;;
  ret (format_response
         (PDict [("message", PStr ("Project ID set to " ++ str_of_int project_id))])).

Definition get_project_details : M string :=
  project_id <- require_project ;;
  api <- get_api ;;
  details <- Api.get_project_details transport pydantic api project_id ;;
  ret (format_response (dump_ProjectDetails details)).

Definition create_project (name : string) (team_id report_template_properties_id : option Z)
    (author_ids : option (list Z)) (template : option string) : M string :=
  api <- get_api ;;
  config <- get_config ;;
  let team_id :=
    if match team_id with None => true | Some _ => false end
       && optint_truthy (dradis_default_team_id config)
    then dradis_default_team_id config else team_id in
  let report_template_properties_id :=
    if match report_template_properties_id with None => true | Some _ => false end
       && optint_truthy (dradis_default_template_id config)
    then dradis_default_template_id config else report_template_properties_id in
  let template :=
    if match template with None => true | Some _ => false end
       && match dradis_default_template config with
          | Some t => str_truthy t
          | None => false
          end
    then dradis_default_template config else template in
  match team_id with
  | None => raise (ValueError "team_id is required and DRADIS_DEFAULT_TEAM_ID is not set")
  | Some team =>
      let project_data :=
        {| cp_name := name; cp_team_id := team;
           cp_report_template_properties_id := report_template_properties_id;
           cp_author_ids := author_ids; cp_template := template |} in
      project <- Api.create_project transport pydantic api project_data ;;
      write_project_id (pd_id project) ;;;
      ret (format_response
             (PDict [("message",
                      PStr ("Project created successfully with ID "
                            ++ str_of_int (pd_id project)));
                     ("project", dump_ProjectDetails project)]))
  end.

Definition create_vulnerability (kwargs : dict) : M string :=
  project_id <- require_project ;;
  api <- get_api ;;
  let vulnerability_data := stringify_kwargs kwargs in
  result <- Api.create_vulnerability transport pydantic api project_id vulnerability_data ;;
  ret (format_response
         (PDict [("message", PStr "Vulnerability created successfully");
                 ("vulnerability", dump_Vulnerability result)])).

Definition listing_hint : string :=
  String LF (String LF "Generate the results as a list of '<ID>: <Rating> - <title>'").

Definition listing (page : option Z) (vulnerabilities : list VulnerabilityListItem) : pyval :=
  PDict [("page", if optint_truthy page then opt_dump PInt page else PInt 1);
         ("items_per_page", PInt 25);
         ("vulnerabilities", PList (map dump_VulnerabilityListItem vulnerabilities))].

Definition get_vulnerabilities (page : option Z) : M string :=
  project_id <- require_project ;;
  api <- get_api ;;
  vulnerabilities <- Api.get_vulnerabilities transport pydantic api project_id page ;;
  ret (format_response (listing page vulnerabilities) ++ listing_hint).

Definition get_all_vulnerability_details (page : option Z) : M string :=
  project_id <- require_project ;;
  api <- get_api ;;
  vulnerabilities <- Api.get_all_vulnerability_details transport pydantic api project_id page ;;
  ret (format_response (listing page vulnerabilities) ++ listing_hint).

Definition get_vulnerability (vulnerability_id : Z) : M string :=
  project_id <- require_project ;;
  api <- get_api ;;
  vulnerability <- Api.get_vulnerability transport api project_id vulnerability_id ;;
  ret (format_response (PDict vulnerability)).

Definition update_vulnerability (issue_id : Z) (kwargs : dict) : M string :=
  project_id <- require_project ;;
  api <- get_api ;;
  let update_data := stringify_kwargs kwargs in
  result <- Api.update_vulnerability transport pydantic api project_id issue_id update_data ;;
  ret (format_response
         (PDict [("message", PStr "Vulnerability updated successfully");
                 ("vulnerability", dump_Vulnerability result)])).

Definition get_content_blocks : M string :=
  project_id <- require_project ;;
  api <- get_api ;;
  content_blocks <- Api.get_content_blocks transport api project_id ;;
  ret ("Output the content blocks in a list, with the ID followed by the fields (even empty fields with no values): "
       ++ format_response (PList content_blocks)).

Definition update_content_block (block_id : Z) (block_group : string) (content : dict)
  : M string :=
  project_id <- require_project ;;
  api <- get_api ;;
  content_block_update <- lift (new_UpdateContentBlock block_group content) ;;
  block <- Api.update_content_block transport pydantic api project_id block_id
             content_block_update ;;
  ret (format_response (dump_ContentBlock block)).

Definition get_document_properties : M string :=
  project_id <- require_project ;;
  api <- get_api ;;
  properties <- Api.get_document_properties transport api project_id ;;
  ret ("List the following properties with <name>: <value>. Don't change any details of the names and values: "
       ++ String LF (format_response properties)).

Definition upsert_document_property (property_name value : string) : M string :=
  project_id <- require_project ;;
  api <- get_api ;;
  property_result <- Api.upsert_document_property transport api project_id
                       property_name value ;;
  ret (format_response property_result).

(** [test_connection]: any exception of the read becomes [False]. *)
Definition test_connection : M bool :=
  fun w =>
    match (api <- get_api ;; Api.get_project_details transport pydantic api 1) w with
    | (Ok _, w') => (Ok true, w')
    | (Raise _, w') => (Ok false, w')
    end.

(** Dispatch of a tool call by name. *)
Definition call_tool (c : tool_call) : M string :=
  match c with
  | Call_set_project p => set_project p
  | Call_get_project_details => get_project_details
  | Call_create_project n t r a tpl => create_project n t r a tpl
  | Call_create_vulnerability kw => create_vulnerability kw
  | Call_get_vulnerabilities page => get_vulnerabilities page
  | Call_get_all_vulnerability_details page => get_all_vulnerability_details page
  | Call_get_vulnerability i => get_vulnerability i
  | Call_update_vulnerability i kw => update_vulnerability i kw
  | Call_get_content_blocks => get_content_blocks
  | Call_update_content_block i g c => update_content_block i g c
  | Call_get_document_properties => get_document_properties
  | Call_upsert_document_property n v => upsert_document_property n v
  end.

End Tools.
End Server.

(* ===================================================================== *)
(** * Settings ([config.py]) and generated schemas ([types.py]) *)
(* ===================================================================== *)

Module Config.

Definition COMMA : ascii := ascii_of_nat 44.
Definition SLASH : ascii := ascii_of_nat 47.

(** [s.split(",")]: the pieces between the commas, empty ones included. *)
Fixpoint split_comma (s : string) : list string :=
  match s with
  | EmptyString => [EmptyString]
  | String c s' =>
      if Ascii.eqb c COMMA then EmptyString :: split_comma s'
      else match split_comma s' with
           | p :: ps => String c p :: ps
           | [] => [String c EmptyString]
           end
  end.

(** What the validator of [dradis_vulnerability_parameters] is handed:
    the text of the variable, or a list. *)
Inductive raw_parameters : Type :=
| RawStr (v : string)
| RawList (v : list string).

(** [DradisConfig.parse_vulnerability_parameters] *)
Definition parse_vulnerability_parameters (v : raw_parameters) : list string :=
  match v with
  | RawStr s =>
      map strip (filter (fun param => str_truthy (strip param)) (split_comma s))
  | RawList l => match l with [] => [] | _ :: _ => l end
  end.

(** [s.rstrip(c)] for one character [c] *)
Fixpoint rstrip_char (c : ascii) (s : string) : string :=
  match s with
  | EmptyString => EmptyString
  | String x s' =>
      match rstrip_char c s' with
      | EmptyString => if Ascii.eqb x c then EmptyString else String x EmptyString
      | r => String x r
      end
  end.

(** [DradisConfig.ensure_trailing_slash_removed]: [v.rstrip("/")] *)
Definition ensure_trailing_slash_removed (v : string) : string :=
  rstrip_char SLASH v.

(** [not os.getenv(name)] *)
Definition env_unset (value : option string) : bool :=
  match value with
  | Some s => negb (str_truthy s)
  | None => true
  end.

(** The list [load_config] collects after the settings failed to load. *)
Definition missing_vars (getenv : string -> option string) : list string :=
  ((if env_unset (getenv "DRADIS_URL") then ["DRADIS_URL"] else [])
   ++ (if env_unset (getenv "DRADIS_API_TOKEN") then ["DRADIS_API_TOKEN"] else []))%list.

Definition NL : string := String LF EmptyString.

Definition error_msg (missing : list string) : string :=
  "Missing required environment variables: " ++ String.concat ", " missing ++ NL ++ NL
  ++ "Please set the following environment variables:" ++ NL
  ++ "- DRADIS_URL: Your Dradis Pro instance URL" ++ NL
  ++ "- DRADIS_API_TOKEN: Your Dradis API token" ++ NL ++ NL
  ++ "Optional variables:" ++ NL
  ++ "- DRADIS_DEFAULT_TEAM_ID: Default team ID for project creation" ++ NL
  ++ "- DRADIS_DEFAULT_TEMPLATE_ID: Default template ID for project creation" ++ NL
  ++ "- DRADIS_DEFAULT_TEMPLATE: Default template name" ++ NL
  ++ "- DRADIS_VULNERABILITY_PARAMETERS: Comma-separated vulnerability parameters"
  ++ NL ++ NL
  ++ "Create a .env file with these variables or set them in your environment.".

(** [load_config]. [settings] is what [DradisConfig()] gives (the
    settings read from the environment and the [.env] file, or the
    exception it raises); [getenv] is [os.getenv]. *)
Definition load_config (settings : outcome DradisConfig)
    (getenv : string -> option string) : outcome DradisConfig :=
  match settings with
  | Ok c => Ok c
  | Raise e =>
      match missing_vars getenv with
      | [] => Raise e
      | (_ :: _) as missing => Raise (ValueError (error_msg missing))
      end
  end.

(** ** The schemas built from the configured parameters *)








End Config.
Import Config.

(* ===================================================================== *)
(** * Notions used to state the properties *)
(* ===================================================================== *)

Module Observe.

(** The field blocks of a mapping, one after the other, in mapping order. *)
Fixpoint blocks (data : dict) : string :=
  match data with
  | [] => EmptyString
  | kv :: rest => field_block (fst kv) (snd kv) ++ blocks rest
  end.

(** The text after the first place where the characters [a b] follow
    each other, if there is one. *)
Fixpoint after_pair (a b : ascii) (s : string) : option string :=
  match s with
  | String x (String y r as s') =>
      if Ascii.eqb x a && Ascii.eqb y b then Some r else after_pair a b s'
  | _ => None
  end.

Definition HASH : ascii := ascii_of_nat 35.
Definition LBRACKET : ascii := ascii_of_nat 91.
Definition RBRACKET : ascii := ascii_of_nat 93.

(** Occurrences of the marker pattern, read from left to right: an
    opening ["#["], then the nearest closing ["]#"] after it; the scan
    goes on behind the closing. *)
Fixpoint count_markers_from (fuel : nat) (s : string) : nat :=
  match fuel with
  | O => 0
  | S fuel' =>
      match after_pair HASH LBRACKET s with
      | None => 0
      | Some r =>
          match after_pair RBRACKET HASH r with
          | None => 0
          | Some r' => S (count_markers_from fuel' r')
          end
      end
  end.

Definition count_markers (s : string) : nat :=
  count_markers_from (String.length s) s.

(** A name without ["]#"] and a value whose text is without ["#["]. *)
Definition marker_free (kv : string * pyval) : Prop :=
  after_pair RBRACKET HASH (fst kv) = None
  /\ after_pair HASH LBRACKET (py_str (snd kv)) = None.

(** The rule the comment in [update_vulnerability] and the specification
    give for the update loop: a text value counts when it is not blank, any
    other value when it is not null. *)
Definition spec_update_test (value : pyval) : bool :=
  match value with
  | PNone => false
  | PStr s => str_truthy (strip s)
  | _ => true
  end.

(** The result of the merge at one key, from the two entries at that key. *)
Definition merged_entry (s u : option pyval) : option pyval :=
  match u with
  | Some v => if update_test v then Some v else s
  | None => s
  end.

(** Some entry of the list maps [name] to a value that is not null. *)
Definition has_property (name : string) (props : list dict) : Prop :=
  exists prop v, In prop props /\ dict_get name prop = Some v /\ v <> PNone.

(** The request [_request] puts on the wire. *)
Definition request_of (self : DradisAPI) (method_ : method) (endpoint : string)
    (project_id : option Z) (json : option pyval) : request :=
  mkRequest method_ (base_url self ++ endpoint)
    match project_id with
    | Some p => [("Dradis-Project-Id", str_of_int p)]
    | None => []
    end
    json.

(** The reply makes [_request] raise: no connection, a status outside
    200-299, or a body that is not JSON. *)
Definition read_fails (reply : http_reply) : bool :=
  match reply with
  | ConnectionFailed => true
  | Response status_code body =>
      negb (is_success status_code)
      || match body with Some _ => false | None => true end
  end.

(** The request names project [pid]: in the project header, or as a read
    of that project. *)
Definition addresses (pid : Z) (r : request) : Prop :=
  req_headers r = [("Dradis-Project-Id", str_of_int pid)]
  \/ (req_method r = GET
      /\ exists base, req_url r = base ++ "/pro/api/projects/" ++ str_of_int pid).

(** The computation only adds requests that satisfy [P] to the wire and
    leaves the session as it is. *)
Definition emits {A} (P : request -> Prop) (c : M A) : Prop :=
  forall w, exists l,
    wire (snd (c w)) = (wire w ++ l)%list
    /\ Forall P l
    /\ server_state (snd (c w)) = server_state w.

End Observe.
Import Observe.

(* ===================================================================== *)
(** * A sample deployment *)
(* ===================================================================== *)

(** A small upstream and a strict reading of the models, to run the
    tools on concrete inputs. *)
Module Sample.

Definition sample_config : DradisConfig :=
  {| dradis_url := "https://dradis.example";
     dradis_api_token := "secret";
     dradis_default_team_id := Some 3%Z;
     dradis_default_template_id := None;
     dradis_default_template := None;
     dradis_vulnerability_parameters := ["Rating"; "CVE"] |}.

Definition sample_api : DradisAPI := DradisAPI_init sample_config.

(** The session right after start-up: no project chosen, nothing sent. *)
Definition fresh : world :=
  {| server_state := {| project_id := None;
                        config := Some sample_config;
                        api := Some sample_api |};
     wire := [] |}.

Definition url (endpoint : string) : string := base_url sample_api ++ endpoint.

Definition project_json (id : Z) : pyval :=
  PDict [("id", PInt id);
         ("name", PStr "acme");
         ("client", PDict [("id", PInt 1); ("name", PStr "ACME Ltd")]);
         ("created_at", PStr "2024-01-01T00:00:00Z");
         ("updated_at", PStr "2024-01-01T00:00:00Z");
         ("authors", PList [PDict [("email", PStr "ann@example.com")]]);
         ("owners", PList [PDict [("email", PStr "ann@example.com")]])].

Definition issue_json : pyval :=
  PDict [("id", PInt 11);
         ("author", PStr "ann@example.com");
         ("title", PStr "Old");
         ("fields", PDict [("Title", PStr "Old"); ("Severity", PStr "High")]);
         ("text", PStr "...");
         ("created_at", PStr "2024-01-01T00:00:00Z");
         ("updated_at", PStr "2024-01-01T00:00:00Z")].

Definition block_json : pyval :=
  PDict [("id", PInt 7);
         ("author", PStr "ann@example.com");
         ("block_group", PStr "Conclusions");
         ("title", PStr "Summary");
         ("fields", PDict [("Title", PStr "Summary"); ("Type", PStr "Exec")]);
         ("content", PStr "...")].

Definition not_found : http_reply :=
  Response 404 (Some (PDict [("message", PStr "Resource not found")])).

Definition is_post (r : request) : bool :=
  match req_method r with POST => true | _ => false end.

(** Projects created so far; the upstream numbers them from 0. *)
Definition created (history : list request) : nat :=
  length (filter (fun r => is_post r && String.eqb (req_url r) (url "/pro/api/projects"))
                 history).

(** Project 2 has an owner on file; elsewhere the property is null. *)
Definition owner_of (r : request) : pyval :=
  match req_headers r with
  | [(_, p)] => if String.eqb p "2" then PStr "alice" else PNone
  | _ => PNone
  end.

Definition sample_upstream (history : list request) (r : request) : http_reply :=
  match req_method r with
  | POST =>
      if String.eqb (req_url r) (url "/pro/api/projects")
      then Response 201 (Some (project_json (Z.of_nat (created history))))
      else if String.eqb (req_url r) (url "/pro/api/issues")
      then Response 201 (Some issue_json)
      else if String.eqb (req_url r) (url "/pro/api/document_properties")
      then Response 201 (Some (PDict [("owner", PStr "bob")]))
      else not_found
  | GET =>
      match find (fun n => String.eqb (req_url r)
                             (url ("/pro/api/projects/" ++ str_of_int (Z.of_nat n))))
                 (seq 0 (created history)) with
      | Some n => Response 200 (Some (project_json (Z.of_nat n)))
      | None =>
          if String.eqb (req_url r) (url "/pro/api/issues/11")
          then Response 200 (Some issue_json)
          else if String.eqb (req_url r) (url "/pro/api/content_blocks/7")
          then Response 200 (Some block_json)
          else if String.eqb (req_url r) (url "/pro/api/document_properties")
          then Response 200 (Some (PList [PDict [("owner", owner_of r)]]))
          else not_found
      end
  | PUT =>
      if String.eqb (req_url r) (url "/pro/api/issues/11")
      then Response 200 (Some issue_json)
      else if String.eqb (req_url r) (url "/pro/api/content_blocks/7")
      then Response 200 (Some block_json)
      else if String.eqb (req_url r) (url "/pro/api/document_properties/owner")
      then Response 200 (Some (PDict [("owner", PStr "bob")]))
      else not_found
  end.

(** ** Models read strictly: every field present and of its own type *)

Definition strict_User (v : pyval) : option User :=
  match v with
  | PDict d => match dict_get "email" d with
               | Some (PStr e) => Some {| email := e |}
               | _ => None
               end
  | _ => None
  end.

Fixpoint all_some {A} (l : list (option A)) : option (list A) :=
  match l with
  | [] => Some []
  | Some a :: l' => match all_some l' with Some r => Some (a :: r) | None => None end
  | None :: _ => None
  end.

Definition strict_Client (v : pyval) : option Client :=
  match v with
  | PDict d => match dict_get "id" d, dict_get "name" d with
               | Some (PInt i), Some (PStr n) => Some {| client_id := i; client_name := n |}
               | _, _ => None
               end
  | _ => None
  end.

Definition strict_ProjectDetails (d : dict) : option ProjectDetails :=
  match dict_get "id" d, dict_get "name" d, dict_get "client" d,
        dict_get "created_at" d, dict_get "updated_at" d,
        dict_get "authors" d, dict_get "owners" d with
  | Some (PInt i), Some (PStr n), Some c, Some (PStr ca), Some (PStr ua),
    Some (PList au), Some (PList ow) =>
      match strict_Client c, all_some (map strict_User au), all_some (map strict_User ow) with
      | Some c', Some au', Some ow' =>
          Some {| pd_id := i; pd_name := n; pd_client := c';
                  pd_project_creation := None;
                  pd_created_at := ca; pd_updated_at := ua;
                  pd_authors := au'; pd_owners := ow';
                  pd_custom_fields := None |}
      | _, _, _ => None
      end
  | _, _, _, _, _, _, _ => None
  end.

Definition strict_Vulnerability (d : dict) : option Vulnerability :=
  match dict_get "id" d, dict_get "author" d, dict_get "title" d, dict_get "fields" d,
        dict_get "text" d, dict_get "created_at" d, dict_get "updated_at" d with
  | Some (PInt i), Some (PStr a), Some (PStr t), Some (PDict f), Some (PStr x),
    Some (PStr ca), Some (PStr ua) =>
      Some {| v_id := i; v_author := a; v_title := t; v_fields := f; v_text := x;
              v_created_at := ca; v_updated_at := ua |}
  | _, _, _, _, _, _, _ => None
  end.

Definition strict_VulnerabilityListItem (d : dict) : option VulnerabilityListItem :=
  match dict_get "id" d, dict_get "title" d, dict_get "fields" d with
  | Some (PInt i), Some (PStr t), Some (PDict f) =>
      if forallb (fun kv => isinstance_str (snd kv)) f
      then Some {| li_id := i; li_title := t; li_fields := f |}
      else None
  | _, _, _ => None
  end.

Definition strict_ContentBlock (d : dict) : option ContentBlock :=
  match dict_get "id" d, dict_get "author" d, dict_get "block_group" d,
        dict_get "title" d, dict_get "fields" d, dict_get "content" d with
  | Some (PInt i), Some (PStr a), Some (PStr g), Some (PStr t), Some (PDict f),
    Some (PStr c) =>
      if forallb (fun kv => isinstance_str (snd kv)) f
      then Some {| cb_id := i; cb_author := a; cb_block_group := g; cb_title := t;
                   cb_fields := f; cb_content := c |}
      else None
  | _, _, _, _, _, _ => None
  end.

Definition strict : Pydantic :=
  {| validate_ProjectDetails := strict_ProjectDetails;
     validate_Vulnerability := strict_Vulnerability;
     validate_VulnerabilityListItem := strict_VulnerabilityListItem;
     validate_ContentBlock := strict_ContentBlock |}.

(** A stand-in for [json.dumps]; the tools' texts play no part below. *)
Definition dumps (data : pyval) : string := py_repr data.

Definition run (c : Server.tool_call) : M string :=
  Server.call_tool sample_upstream strict dumps c.

(** The session after a first project was created: the upstream gave it
    the id 0. *)
Definition first_created : world :=
  snd (run (Server.Call_create_project "acme" None None None None) fresh).

(** The session after a second project was created, with the id 1. *)
Definition second_created : world :=
  snd (run (Server.Call_create_project "beta" None None None None) first_created).

(** The content block 7 as the strict reading returns it. *)
Definition block7 : ContentBlock :=
  {| cb_id := 7;
     cb_author := "ann@example.com";
     cb_block_group := "Conclusions";
     cb_title := "Summary";
     cb_fields := [("Title", PStr "Summary"); ("Type", PStr "Exec")];
     cb_content := "..." |}.

End Sample.

(** Notions used to state the properties of the settings. *)
Module ConfigNotions.

(** A parameter name as the settings keep it: not empty, without blanks
    around it and without a comma. *)
Definition clean_name (name : string) : Prop :=
  name <> EmptyString /\ strip name = name /\ mem_char COMMA name = false.

(** [n] slashes. *)
Definition slashes (n : nat) : string := string_of_list_ascii (repeat SLASH n).


End ConfigNotions.
Import ConfigNotions.

(** Upstreams that cannot be read, and sessions to try them on. *)
Module Outage.

(** No connection at all. *)
Definition offline (history : list request) (r : request) : http_reply :=
  ConnectionFailed.

(** A status of 200 with a body that is not JSON. *)
Definition garbled (history : list request) (r : request) : http_reply :=
  Response 200 None.

(** A session whose client was never set up. *)
Definition no_client : world :=
  {| server_state := {| project_id := Some 5%Z; config := None; api := None |};
     wire := [] |}.

(** A session on project 5 of the sample deployment. *)
Definition on_project_5 : world :=
  {| server_state := {| project_id := Some 5%Z;
                        config := Some Sample.sample_config;
                        api := Some Sample.sample_api |};
     wire := [] |}.

(** The sample settings without a default team. *)
Definition no_default_team : world :=
  {| server_state :=
       {| project_id := None;
          config := Some {| dradis_url := "https://dradis.example";
                            dradis_api_token := "secret";
                            dradis_default_team_id := Some 0%Z;
                            dradis_default_template_id := None;
                            dradis_default_template := None;
                            dradis_vulnerability_parameters := [] |};
          api := Some Sample.sample_api |};
     wire := [] |}.

(** An upstream that answers every request with one mapping. *)
Definition mapping_reply (history : list request) (r : request) : http_reply :=
  Response 200 (Some (PDict [("owner", PStr "bob")])).

(** An upstream that answers every request with two content blocks, the
    second without its fields. *)
Definition blocks_reply (history : list request) (r : request) : http_reply :=
  Response 200
    (Some (PList (map PDict
                    [[("id", PInt 7); ("title", PStr "Summary");
                      ("fields", PDict [("Type", PStr "Exec")])];
                     [("id", PInt 8); ("title", PStr "Scope")]]))).

(** The record the strict reading makes of [Sample.project_json id]. *)
Definition project_record (id : Z) : ProjectDetails :=
  {| pd_id := id;
     pd_name := "acme";
     pd_client := {| client_id := 1; client_name := "ACME Ltd" |};
     pd_project_creation := None;
     pd_created_at := "2024-01-01T00:00:00Z";
     pd_updated_at := "2024-01-01T00:00:00Z";
     pd_authors := [{| email := "ann@example.com" |}];
     pd_owners := [{| email := "ann@example.com" |}];
     pd_custom_fields := None |}.

(** The issue 11 of the sample deployment, as the mapping in its reply. *)
Definition issue11 : dict :=
  [("id", PInt 11);
   ("author", PStr "ann@example.com");
   ("title", PStr "Old");
   ("fields", PDict [("Title", PStr "Old"); ("Severity", PStr "High")]);
   ("text", PStr "...");
   ("created_at", PStr "2024-01-01T00:00:00Z");
   ("updated_at", PStr "2024-01-01T00:00:00Z")].

End Outage.

(* ===================================================================== *)
(** * Properties of strings and dictionaries *)
(* ===================================================================== *)

Module StringFacts.

Lemma append_nil_r (s : string) : s ++ EmptyString = s.
Proof. induction s as [|c s IH]; simpl; [reflexivity | now rewrite IH]. Qed.

Lemma append_assoc (a b c : string) : (a ++ b) ++ c = a ++ (b ++ c).
Proof. induction a as [|x a IH]; simpl; [reflexivity | now rewrite IH]. Qed.

Lemma length_append (a b : string) :
  String.length (a ++ b) = String.length a + String.length b.
Proof. induction a as [|x a IH]; simpl; [reflexivity | now rewrite IH]. Qed.

(** A character other than the first of the pair is stepped over. *)
Lemma after_pair_skip (a b x : ascii) (s : string) :
  x <> a -> after_pair a b (String x s) = after_pair a b s.
Proof.
  intros Hx. destruct s as [|y r]; simpl.
  - reflexivity.
  - destruct (Ascii.eqb_spec x a) as [->|_]; [contradiction | reflexivity].
Qed.

(** A prefix without the pair adds nothing, as long as the pair cannot
    straddle the seam. *)
Lemma after_pair_app_free (a b : ascii) (v s : string) :
  after_pair a b v = None ->
  (forall r, s <> String b r) ->
  after_pair a b (v ++ s) = after_pair a b s.
Proof.
  induction v as [|x v IH]; intros Hfree Hseam; [reflexivity|].
  destruct v as [|y v'].
  - simpl. destruct s as [|y r]; [reflexivity|].
    destruct (Ascii.eqb_spec x a) as [->|_]; simpl; [|reflexivity].
    destruct (Ascii.eqb_spec y b) as [->|_]; [|reflexivity].
    exfalso. now apply (Hseam r).
  - change ((String x (String y v')) ++ s) with (String x (String y v' ++ s)).
    simpl in Hfree. change (String y v' ++ s) with (String y (v' ++ s)).
    simpl after_pair.
    destruct (Ascii.eqb x a && Ascii.eqb y b); [discriminate|].
    change (String y (v' ++ s)) with (String y v' ++ s).
    now apply IH.
Qed.

(** The first closing marker behind a name without one is the marker
    the encoder wrote. *)
Lemma after_close_name (k rest : string) :
  after_pair RBRACKET HASH k = None ->
  after_pair RBRACKET HASH (k ++ "]#" ++ rest) = Some rest.
Proof.
  intros Hk. rewrite after_pair_app_free; [reflexivity | exact Hk |].
  intros r H. discriminate H.
Qed.

(** Behind a value without an opening marker, the next opening marker is
    that of the next field. *)
Lemma after_open_value (v rest : string) :
  after_pair HASH LBRACKET v = None ->
  after_pair HASH LBRACKET (CRLF ++ v ++ CRLF ++ CRLF ++ rest)
  = after_pair HASH LBRACKET rest.
Proof.
  intros Hv.
  change (CRLF ++ v ++ CRLF ++ CRLF ++ rest)
    with (String CR (String LF (v ++ CRLF ++ CRLF ++ rest))).
  rewrite after_pair_skip by discriminate.
  change (String LF (v ++ CRLF ++ CRLF ++ rest))
    with (String LF v ++ (CRLF ++ CRLF ++ rest)).
  rewrite after_pair_app_free.
  - change (CRLF ++ CRLF ++ rest)
      with (String CR (String LF (String CR (String LF rest)))).
    now rewrite !after_pair_skip by discriminate.
  - rewrite after_pair_skip by discriminate. exact Hv.
  - intros r H. discriminate H.
Qed.

End StringFacts.

Module DictFacts.

Lemma dict_get_set_eq (k : string) (v : pyval) (d : dict) :
  dict_get k (dict_set k v d) = Some v.
Proof.
  induction d as [|[k' v'] d IH]; simpl.
  - now rewrite String.eqb_refl.
  - destruct (String.eqb_spec k k') as [->|Hne]; simpl.
    + now rewrite String.eqb_refl.
    + destruct (String.eqb_spec k k'); [contradiction | exact IH].
Qed.

Lemma dict_get_set_neq (k k' : string) (v : pyval) (d : dict) :
  k <> k' -> dict_get k (dict_set k' v d) = dict_get k d.
Proof.
  intros Hne. induction d as [|[k0 v0] d IH]; simpl.
  - destruct (String.eqb_spec k k'); [contradiction | reflexivity].
  - destruct (String.eqb_spec k' k0) as [->|Hk0]; simpl.
    + destruct (String.eqb_spec k k0); [contradiction | reflexivity].
    + destruct (String.eqb_spec k k0); [reflexivity | exact IH].
Qed.

Lemma dict_get_absent (k : string) (d : dict) :
  ~ In k (keys d) -> dict_get k d = None.
Proof.
  induction d as [|[k' v'] d IH]; simpl; intros Hnot; [reflexivity|].
  destruct (String.eqb_spec k k') as [->|_].
  - exfalso. apply Hnot. now left.
  - apply IH. intros Hin. apply Hnot. now right.
Qed.

Lemma dict_get_present (k : string) (v : pyval) (d : dict) :
  wf_dict d -> In (k, v) d -> dict_get k d = Some v.
Proof.
  unfold wf_dict. induction d as [|[k' v'] d IH]; simpl; intros Hwf Hin; [contradiction|].
  inversion Hwf as [|? ? Hnot Hwf']; subst.
  destruct Hin as [Heq|Hin].
  - inversion Heq; subst. now rewrite String.eqb_refl.
  - destruct (String.eqb_spec k k') as [->|_].
    + exfalso. apply Hnot. change k' with (fst (k', v)). now apply in_map.
    + now apply IH.
Qed.

Lemma dict_get_some_in (k : string) (v : pyval) (d : dict) :
  dict_get k d = Some v -> In (k, v) d.
Proof.
  induction d as [|[k' v'] d IH]; simpl; [discriminate|].
  destruct (String.eqb_spec k k') as [->|_]; intros H.
  - inversion H; subst. now left.
  - right. now apply IH.
Qed.

End DictFacts.

(* ===================================================================== *)
(** * The encoder *)
(* ===================================================================== *)

Module CodecFacts.
Import StringFacts DictFacts.

#[local] Arguments field_block : simpl never.

Lemma construct_from (data : dict) (construction : string) :
  fold_left (fun construction kv => construction ++ field_block (fst kv) (snd kv))
            data construction
  = construction ++ blocks data.
Proof.
  revert construction. induction data as [|kv data IH]; intros construction; simpl.
  - now rewrite append_nil_r.
  - rewrite IH. apply append_assoc.
Qed.

(** The loop of the encoder builds the field blocks in mapping order. *)
Lemma construct_blocks (data : dict) :
  _construct_dradis_response data = blocks data.
Proof. unfold _construct_dradis_response. now rewrite construct_from. Qed.

Lemma construct_app (d1 d2 : dict) :
  _construct_dradis_response (d1 ++ d2)%list
  = _construct_dradis_response d1 ++ _construct_dradis_response d2.
Proof.
  rewrite !construct_blocks.
  induction d1 as [|kv d1 IH]; cbn [blocks app]; [reflexivity|].
  rewrite IH. symmetry. apply append_assoc.
Qed.

Lemma field_block_shape (k : string) (v : pyval) (rest : string) :
  field_block k v ++ rest
  = "#[" ++ (k ++ "]#" ++ (CRLF ++ py_str v ++ CRLF ++ CRLF ++ rest)).
Proof.
  unfold field_block. now rewrite !append_assoc.
Qed.

Lemma blocks_end (data : dict) :
  data <> [] -> exists front, blocks data = front ++ CRLF ++ CRLF.
Proof.
  induction data as [|kv data IH]; intros Hne; [contradiction|].
  destruct data as [|kv' data'].
  - exists ("#[" ++ fst kv ++ "]#" ++ CRLF ++ py_str (snd kv)).
    cbn [blocks]. rewrite append_nil_r. unfold field_block.
    now rewrite !append_assoc.
  - destruct IH as [front Hfront]; [discriminate|].
    exists (field_block (fst kv) (snd kv) ++ front).
    change (blocks (kv :: kv' :: data'))
      with (field_block (fst kv) (snd kv) ++ blocks (kv' :: data')).
    rewrite Hfront. now rewrite !append_assoc.
Qed.

Lemma count_markers_from_S (fuel : nat) (s : string) :
  count_markers_from (S fuel) s
  = match after_pair HASH LBRACKET s with
    | None => 0
    | Some r =>
        match after_pair RBRACKET HASH r with
        | None => 0
        | Some r' => S (count_markers_from fuel r')
        end
    end.
Proof. reflexivity. Qed.

Lemma after_open_marker (s : string) :
  after_pair HASH LBRACKET ("#[" ++ s) = Some s.
Proof. reflexivity. Qed.

(** With names and values free of markers, the scan finds one marker per
    field, whatever fuel beyond the number of fields it is given. *)
Lemma count_markers_blocks (data : dict) :
  Forall marker_free data ->
  forall fuel, length data <= fuel ->
  count_markers_from fuel (blocks data) = length data.
Proof.
  induction data as [|kv data IH]; intros Hfree fuel Hfuel.
  - destruct fuel; reflexivity.
  - inversion Hfree as [|? ? [Hk Hv] Hfree']; subst.
    destruct fuel as [|fuel]; [simpl in Hfuel; lia|].
    cbn [blocks]. rewrite field_block_shape.
    rewrite count_markers_from_S, after_open_marker, (after_close_name _ _ Hk).
    assert (Hstep : forall f,
      count_markers_from f (CRLF ++ py_str (snd kv) ++ CRLF ++ CRLF ++ blocks data)
      = count_markers_from f (blocks data)).
    { intros f. destruct f as [|f]; [reflexivity|].
      now rewrite !count_markers_from_S, (after_open_value _ _ Hv). }
    rewrite Hstep. cbn [length]. f_equal.
    apply IH; [exact Hfree' | cbn [length] in Hfuel; lia].
Qed.

Lemma after_pair_shorter (a b : ascii) (s r : string) :
  after_pair a b s = Some r -> String.length r + 2 <= String.length s.
Proof.
  revert r. induction s as [|x s IH]; intros r; [discriminate|].
  destruct s as [|y s']; [discriminate|].
  cbn [after_pair]. destruct (Ascii.eqb x a && Ascii.eqb y b).
  - intros H. inversion H; subst. cbn [String.length]. lia.
  - intros H. apply IH in H. cbn [String.length] in *. lia.
Qed.

(** The length of the text is fuel enough for the scan: more fuel finds
    no further marker. *)
Lemma count_markers_fuel (fuel : nat) (s : string) :
  String.length s <= fuel -> count_markers_from fuel s = count_markers s.
Proof.
  unfold count_markers.
  assert (Hany : forall n f1 f2 t,
            String.length t <= n -> n <= f1 -> n <= f2 ->
            count_markers_from f1 t = count_markers_from f2 t).
  { induction n as [|n IH]; intros f1 f2 t Ht H1 H2.
    - destruct t; [|cbn [String.length] in Ht; lia].
      destruct f1, f2; reflexivity.
    - destruct f1 as [|f1]; [lia|]. destruct f2 as [|f2]; [lia|].
      rewrite !count_markers_from_S.
      destruct (after_pair HASH LBRACKET t) as [r|] eqn:Hr; [|reflexivity].
      destruct (after_pair RBRACKET HASH r) as [r'|] eqn:Hr'; [|reflexivity].
      apply after_pair_shorter in Hr. apply after_pair_shorter in Hr'.
      f_equal. apply IH; lia. }
  intros Hfuel. apply (Hany (String.length s)); lia.
Qed.

Lemma blocks_length (data : dict) : length data <= String.length (blocks data).
Proof.
  induction data as [|kv data IH]; cbn [blocks length]; [lia|].
  rewrite length_append. unfold field_block. rewrite !length_append.
  cbn [String.length]. lia.
Qed.

End CodecFacts.

(* ===================================================================== *)
(** * The merges *)
(* ===================================================================== *)

Module MergeFacts.
Import StringFacts DictFacts CodecFacts.

(** The test of the update loop lets every value through that is not
    [None]: the [or] makes the blank check on text void. *)
Lemma update_test_not_none (v : pyval) : update_test v = negb (is_none v).
Proof.
  destruct v as [| | | |s| |]; try reflexivity.
  unfold update_test; simpl. now destruct (str_truthy (strip s)).
Qed.

Lemma merge_vulnerability_cons (S : dict) (kv : string * pyval) (U : dict) :
  merge_vulnerability S (kv :: U)
  = merge_vulnerability
      (if update_test (snd kv) then dict_set (fst kv) (snd kv) S else S) U.
Proof. reflexivity. Qed.

(** The merged record at one key. *)
Lemma merge_vulnerability_get (U : dict) :
  wf_dict U ->
  forall (S : dict) (k : string),
  dict_get k (merge_vulnerability S U) = merged_entry (dict_get k S) (dict_get k U).
Proof.
  unfold wf_dict. induction U as [|[k0 v0] U IH]; intros Hwf S k.
  - reflexivity.
  - inversion Hwf as [|? ? Hnot Hwf']; subst.
    rewrite merge_vulnerability_cons, (IH Hwf'). cbn [fst snd dict_get].
    destruct (String.eqb_spec k k0) as [->|Hne].
    + rewrite (dict_get_absent _ _ Hnot). cbn [merged_entry].
      destruct (update_test v0); [apply dict_get_set_eq | reflexivity].
    + destruct (update_test v0); [|reflexivity].
      now rewrite dict_get_set_neq.
Qed.

Lemma merge_content_block_cons (B : dict) (kv : string * pyval) (C : dict) :
  merge_content_block B (kv :: C)
  = merge_content_block
      (if isinstance_str (snd kv) then dict_set (fst kv) (snd kv) B else B) C.
Proof. reflexivity. Qed.

(** The merged content block at one key. *)
Lemma merge_content_block_get (C : dict) :
  wf_dict C ->
  forall (B : dict) (k : string),
  dict_get k (merge_content_block B C)
  = match dict_get k C with
    | Some v => if isinstance_str v then Some v else dict_get k B
    | None => dict_get k B
    end.
Proof.
  unfold wf_dict. induction C as [|[k0 v0] C IH]; intros Hwf B k.
  - reflexivity.
  - inversion Hwf as [|? ? Hnot Hwf']; subst.
    rewrite merge_content_block_cons, (IH Hwf'). cbn [fst snd dict_get].
    destruct (String.eqb_spec k k0) as [->|Hne].
    + rewrite (dict_get_absent _ _ Hnot).
      destruct (isinstance_str v0); [apply dict_get_set_eq | reflexivity].
    + assert (Hsame : dict_get k (if isinstance_str v0 then dict_set k0 v0 B else B)
                      = dict_get k B).
      { destruct (isinstance_str v0); [now apply dict_get_set_neq | reflexivity]. }
      now rewrite Hsame.
Qed.

(** An entry of a mapping is written out as its field block. *)
Lemma construct_entry (d : dict) (k : string) (v : pyval) :
  In (k, v) d ->
  exists front back,
    _construct_dradis_response d = front ++ field_block k v ++ back.
Proof.
  intros Hin. destruct (in_split _ _ Hin) as (l1 & l2 & ->).
  exists (_construct_dradis_response l1), (_construct_dradis_response l2).
  rewrite construct_app. f_equal.
  now rewrite !construct_blocks.
Qed.

Lemma stringify_kwargs_in (kwargs : dict) (k : string) (v : pyval) :
  In (k, v) (stringify_kwargs kwargs)
  <-> exists v0, In (k, v0) kwargs /\ v0 <> PNone /\ v = PStr (py_str v0).
Proof.
  unfold stringify_kwargs. rewrite in_map_iff. split.
  - intros ([k0 v0] & Heq & Hin). apply filter_In in Hin. destruct Hin as [Hin Hnn].
    cbn [fst snd] in *. inversion Heq; subst. exists v0. repeat split; [exact Hin|].
    intros ->. discriminate Hnn.
  - intros (v0 & Hin & Hnn & ->). exists (k, v0). split; [reflexivity|].
    apply filter_In. split; [exact Hin|]. cbn [snd]. now destruct v0.
Qed.

(** Coercing the values to text beforehand does not change the block. *)
Lemma construct_stringified (kwargs : dict) :
  _construct_dradis_response (stringify_kwargs kwargs)
  = _construct_dradis_response (filter (fun kv => negb (is_none (snd kv))) kwargs).
Proof.
  rewrite !construct_blocks. unfold stringify_kwargs.
  induction (filter (fun kv => negb (is_none (snd kv))) kwargs) as [|kv l IH].
  - reflexivity.
  - cbn [map blocks fst snd]. now rewrite IH.
Qed.

End MergeFacts.

(* ===================================================================== *)
(** * Running the client and the tools *)
(* ===================================================================== *)

Module RunFacts.

Lemma bind_ok {A B} (c : M A) (k : A -> M B) (w w' : world) (a : A) :
  c w = (Ok a, w') -> bind c k w = k a w'.
Proof. unfold bind. now intros ->. Qed.

Lemma bind_raise {A B} (c : M A) (k : A -> M B) (w w' : world) (e : exn) :
  c w = (Raise e, w') -> bind c k w = (Raise e, w').
Proof. unfold bind. now intros ->. Qed.

(** What a successful [bind] went through. *)
Lemma bind_inv_ok {A B} (c : M A) (k : A -> M B) (w w2 : world) (b : B) :
  bind c k w = (Ok b, w2) ->
  exists a w1, c w = (Ok a, w1) /\ k a w1 = (Ok b, w2).
Proof.
  unfold bind. destruct (c w) as [[a|e] w1]; intros H; [|discriminate].
  now exists a, w1.
Qed.

(** A continuation that leaves the world alone does not show in it. *)
Lemma bind_pure_world {A B} (c : M A) (k : A -> M B) (w : world) :
  (forall a w1, snd (k a w1) = w1) -> snd (bind c k w) = snd (c w).
Proof.
  intros Hk. unfold bind. destruct (c w) as [[a|e] w1]; [apply Hk | reflexivity].
Qed.

Lemma emits_ret {A} (P : request -> Prop) (a : A) : emits P (ret a).
Proof. intros w. exists []. cbn. now rewrite app_nil_r. Qed.

Lemma emits_raise {A} (P : request -> Prop) (e : exn) : emits P (@raise A e).
Proof. intros w. exists []. cbn. now rewrite app_nil_r. Qed.

Lemma emits_lift {A} (P : request -> Prop) (o : outcome A) : emits P (lift o).
Proof. intros w. exists []. cbn. now rewrite app_nil_r. Qed.

Lemma emits_read_state (P : request -> Prop) : emits P read_state.
Proof. intros w. exists []. cbn. now rewrite app_nil_r. Qed.

Lemma emits_bind {A B} (P : request -> Prop) (c : M A) (k : A -> M B) :
  emits P c -> (forall a, emits P (k a)) -> emits P (bind c k).
Proof.
  intros Hc Hk w. destruct (Hc w) as (l1 & Hw1 & Hl1 & Hs1).
  unfold bind. destruct (c w) as [[a|e] w1]; cbn [snd] in *.
  - destruct (Hk a w1) as (l2 & Hw2 & Hl2 & Hs2).
    exists (l1 ++ l2)%list. repeat split.
    + now rewrite Hw2, Hw1, app_assoc.
    + now apply Forall_app.
    + now rewrite Hs2.
  - exists l1. now repeat split.
Qed.

Lemma emits_mapM {A B} (P : request -> Prop) (f : A -> M B) (l : list A) :
  (forall a, emits P (f a)) -> emits P (mapM f l).
Proof.
  intros Hf. induction l as [|a l IH]; cbn [mapM].
  - apply emits_ret.
  - apply emits_bind; [apply Hf | intros b].
    apply emits_bind; [apply IH | intros bs]. apply emits_ret.
Qed.

Section Upstream.

Context (transport : list request -> request -> http_reply).
Context (pydantic : Pydantic).
Context (json_dumps : pyval -> string).

(** Whatever the reply, [_request] puts its request on the wire and
    leaves the session alone. *)
Lemma request_world self method_ endpoint project_id json (w : world) :
  snd (Api._request transport self method_ endpoint project_id json w)
  = {| server_state := server_state w;
       wire := (wire w ++ [request_of self method_ endpoint project_id json])%list |}.
Proof.
  unfold Api._request, request_of.
  destruct (transport _ _) as [|code [j|]]; try reflexivity;
    destruct (is_success code); reflexivity.
Qed.

Lemma request_ok self method_ endpoint project_id json (w : world)
    (code : Z) (body : pyval) :
  transport (wire w) (request_of self method_ endpoint project_id json)
  = Response code (Some body) ->
  is_success code = true ->
  Api._request transport self method_ endpoint project_id json w
  = (Ok body,
     {| server_state := server_state w;
        wire := (wire w ++ [request_of self method_ endpoint project_id json])%list |}).
Proof.
  unfold Api._request, request_of. intros -> Hok. now rewrite Hok.
Qed.

Lemma request_raises self method_ endpoint project_id json (w : world) :
  read_fails (transport (wire w) (request_of self method_ endpoint project_id json)) = true ->
  exists e,
    Api._request transport self method_ endpoint project_id json w
    = (Raise e,
       {| server_state := server_state w;
          wire := (wire w ++ [request_of self method_ endpoint project_id json])%list |}).
Proof.
  unfold Api._request, request_of, read_fails.
  destruct (transport _ _) as [|code [j|]]; intros H.
  - eexists; reflexivity.
  - rewrite orb_false_r in H. apply negb_true_iff in H. rewrite H.
    eexists; reflexivity.
  - destruct (is_success code); eexists; reflexivity.
Qed.

(** A request that returns was answered with a JSON body and a status in
    200-299. *)
Lemma request_ok_inv self method_ endpoint project_id json (w w' : world) (body : pyval) :
  Api._request transport self method_ endpoint project_id json w = (Ok body, w') ->
  read_fails (transport (wire w) (request_of self method_ endpoint project_id json)) = false.
Proof.
  unfold Api._request, request_of, read_fails.
  destruct (transport _ _) as [|code [j|]]; try discriminate;
    destruct (is_success code); try discriminate; reflexivity.
Qed.

Lemma emits_request (P : request -> Prop) self method_ endpoint project_id json :
  P (request_of self method_ endpoint project_id json) ->
  emits P (Api._request transport self method_ endpoint project_id json).
Proof.
  intros HP w. exists [request_of self method_ endpoint project_id json].
  rewrite request_world. cbn. repeat split. now constructor.
Qed.

End Upstream.

(** On a list of mappings the scan for the property is a plain search and
    never raises. *)
Lemma property_exists_dicts (n : string) (L : list dict) :
  Api.property_exists n (map PDict L)
  = Ok (existsb (fun prop => match dict_get n prop with
                             | Some x => negb (is_none x)
                             | None => false
                             end) L).
Proof.
  induction L as [|prop L IH]; [reflexivity|].
  cbn [map Api.property_exists py_in py_getitem existsb]. unfold dict_mem.
  destruct (dict_get n prop) as [x|]; [|exact IH].
  destruct (negb (is_none x)); [reflexivity | exact IH].
Qed.

End RunFacts.

Module ToolFacts.
Import RunFacts.

Ltac emits_steps :=
  repeat first
    [ apply emits_lift
    | apply emits_ret
    | apply emits_raise
    | apply emits_read_state
    | apply emits_request; left; reflexivity
    | apply emits_mapM; intro
    | apply emits_bind; [|intro]
    | match goal with
      | |- emits _ (if ?b then _ else _) => destruct b
      | |- emits _ (match ?x with _ => _ end) => destruct x
      end ].

Section Upstream.

Context (transport : list request -> request -> http_reply).
Context (pydantic : Pydantic).
Context (json_dumps : pyval -> string).

Lemma require_project_unset (w : world) :
  optint_truthy (project_id (server_state w)) = false ->
  Server.require_project w = (Raise (ValueError Server.NO_PROJECT), w).
Proof.
  intros H. unfold Server.require_project, bind, read_state. now rewrite H.
Qed.

Lemma require_project_set (w : world) (p : Z) :
  project_id (server_state w) = Some p -> p <> 0%Z ->
  Server.require_project w = (Ok p, w).
Proof.
  intros H Hp. unfold Server.require_project, bind, read_state. rewrite H. cbn.
  destruct (Z.eqb_spec p 0); [contradiction | reflexivity].
Qed.

(** With a false project id the guard ends every project-scoped tool
    before anything else happens. *)
Lemma guard_blocks (c : Server.tool_call) (w : world) :
  Server.project_scoped c = true ->
  optint_truthy (project_id (server_state w)) = false ->
  Server.call_tool transport pydantic json_dumps c w
  = (Raise (ValueError Server.NO_PROJECT), w).
Proof.
  intros Hc Hw. pose proof (require_project_unset w Hw) as Hreq.
  destruct c; try discriminate Hc; cbn [Server.call_tool];
    unfold Server.get_project_details, Server.create_vulnerability,
      Server.get_vulnerabilities, Server.get_all_vulnerability_details,
      Server.get_vulnerability, Server.update_vulnerability,
      Server.get_content_blocks, Server.update_content_block,
      Server.get_document_properties, Server.upsert_document_property;
    now apply bind_raise.
Qed.

Lemma get_api_emits (P : request -> Prop) : emits P Server.get_api.
Proof. unfold Server.get_api. emits_steps. Qed.

Lemma api_get_project_details_emits self pid :
  emits (addresses pid) (Api.get_project_details transport pydantic self pid).
Proof.
  unfold Api.get_project_details.
  apply emits_bind; [|intro; apply emits_lift].
  apply emits_request. right. split; [reflexivity|]. now exists (base_url self).
Qed.

(** Past the guard, a project-scoped tool only sends requests that name
    the project the guard returned, and leaves the session as it is. *)
Lemma scoped_tool_addresses (c : Server.tool_call) (w : world) (pid : Z) :
  Server.project_scoped c = true ->
  Server.require_project w = (Ok pid, w) ->
  exists l,
    wire (snd (Server.call_tool transport pydantic json_dumps c w)) = (wire w ++ l)%list
    /\ Forall (addresses pid) l
    /\ server_state (snd (Server.call_tool transport pydantic json_dumps c w))
       = server_state w.
Proof.
  intros Hc Hreq.
  destruct c; try discriminate Hc; cbn [Server.call_tool];
    unfold Server.get_project_details, Server.create_vulnerability,
      Server.get_vulnerabilities, Server.get_all_vulnerability_details,
      Server.get_vulnerability, Server.update_vulnerability,
      Server.get_content_blocks, Server.update_content_block,
      Server.get_document_properties, Server.upsert_document_property;
    rewrite (bind_ok _ _ _ _ _ Hreq); cbv beta;
    refine ((_ : emits (addresses pid) _) w);
    (apply emits_bind; [apply get_api_emits | intros self]).
  - apply emits_bind; [apply api_get_project_details_emits | intro; apply emits_ret].
  - unfold Api.create_vulnerability. emits_steps.
  - unfold Api.get_vulnerabilities. emits_steps.
  - unfold Api.get_all_vulnerability_details. emits_steps.
  - unfold Api.get_vulnerability. emits_steps.
  - unfold Api.update_vulnerability, Api.get_vulnerability. emits_steps.
  - unfold Api.get_content_blocks. emits_steps.
  - unfold Api.update_content_block, Api.get_content_block. emits_steps.
  - unfold Api.get_document_properties. emits_steps.
  - unfold Api.upsert_document_property, Api.get_document_properties. emits_steps.
Qed.

End Upstream.
End ToolFacts.

Module SessionFacts.
Import RunFacts ToolFacts.

Section Upstream.

Context (transport : list request -> request -> http_reply).
Context (pydantic : Pydantic).
Context (json_dumps : pyval -> string).

Lemma request_inv self method_ endpoint project_id json (w w' : world) (body : pyval) :
  Api._request transport self method_ endpoint project_id json w = (Ok body, w') ->
  exists code,
    transport (wire w) (request_of self method_ endpoint project_id json)
    = Response code (Some body)
    /\ is_success code = true
    /\ w' = {| server_state := server_state w;
               wire := (wire w ++ [request_of self method_ endpoint project_id json])%list |}.
Proof.
  unfold Api._request, request_of.
  destruct (transport _ _) as [|code [j|]]; try discriminate;
    destruct (is_success code) eqn:Hcode; try discriminate.
  intros H. inversion H; subst. now exists code.
Qed.

Lemma lift_inv {A} (o : outcome A) (w w' : world) (r : outcome A) :
  lift o w = (r, w') -> r = o /\ w' = w.
Proof. unfold lift. intros H. now inversion H. Qed.

Lemma get_api_run (w : world) :
  Server.get_api w
  = match api (server_state w) with
    | Some a => (Ok a, w)
    | None => (Raise (ValueError "API not initialized. Check your configuration."), w)
    end.
Proof.
  unfold Server.get_api, bind, read_state. now destruct (api (server_state w)).
Qed.

Lemma get_config_run (w : world) :
  Server.get_config w
  = match config (server_state w) with
    | Some c => (Ok c, w)
    | None => (Raise (ValueError "Configuration not loaded."), w)
    end.
Proof.
  unfold Server.get_config, bind, read_state. now destruct (config (server_state w)).
Qed.

(** [set_project] step by step: the client, the verifying read, then the
    assignment. *)
Lemma set_project_run (p : Z) (w : world) :
  Server.set_project transport pydantic json_dumps p w
  = match api (server_state w) with
    | None => (Raise (ValueError "API not initialized. Check your configuration."), w)
    | Some a =>
        match Api.get_project_details transport pydantic a p w with
        | (Raise e, w1) => (Raise e, w1)
        | (Ok _, w1) =>
            (Ok (Server.format_response json_dumps
                   (PDict [("message", PStr ("Project ID set to " ++ str_of_int p))])),
             {| server_state := {| project_id := Some p;
                                   config := config (server_state w1);
                                   api := api (server_state w1) |};
                wire := wire w1 |})
        end
    end.
Proof.
  unfold Server.set_project. unfold bind at 1. rewrite get_api_run.
  destruct (api (server_state w)) as [a|]; [|reflexivity].
  unfold bind at 1.
  destruct (Api.get_project_details transport pydantic a p w) as [[d|e] w1]; reflexivity.
Qed.

(** The verifying read leaves the session as it is, and returns only
    when the upstream answered it. *)
Lemma api_get_project_details_run (a : DradisAPI) (p : Z) (w : world) :
  let req := request_of a GET ("/pro/api/projects/" ++ str_of_int p) None None in
  server_state (snd (Api.get_project_details transport pydantic a p w)) = server_state w
  /\ (read_fails (transport (wire w) req) = true ->
      exists e, fst (Api.get_project_details transport pydantic a p w) = Raise e)
  /\ (forall d, fst (Api.get_project_details transport pydantic a p w) = Ok d ->
      read_fails (transport (wire w) req) = false).
Proof.
  intros req. unfold Api.get_project_details, bind.
  pose proof (request_world transport a GET ("/pro/api/projects/" ++ str_of_int p) None None w)
    as Hw.
  pose proof (request_raises transport a GET ("/pro/api/projects/" ++ str_of_int p) None None w)
    as Hfail.
  pose proof (request_ok_inv transport a GET ("/pro/api/projects/" ++ str_of_int p) None None w)
    as Hok.
  fold req in Hfail, Hok.
  destruct (Api._request transport a GET ("/pro/api/projects/" ++ str_of_int p) None None w)
    as [[body|e] w1]; cbn [fst snd] in *; subst w1.
  - repeat split.
    + intros Hf. rewrite (Hok _ _ eq_refl) in Hf. discriminate.
    + intros _ _. now apply (Hok _ _ eq_refl).
  - repeat split.
    + intros _. now exists e.
    + intros d Hd. discriminate Hd.
Qed.

(** A [set_project] that returns has read the project and stored its id. *)
Lemma set_project_commits (p : Z) (w w' : world) (out : string) :
  Server.set_project transport pydantic json_dumps p w = (Ok out, w') ->
  project_id (server_state w') = Some p
  /\ exists a,
       api (server_state w) = Some a
       /\ read_fails (transport (wire w)
                        (request_of a GET ("/pro/api/projects/" ++ str_of_int p) None None))
          = false.
Proof.
  rewrite set_project_run.
  destruct (api (server_state w)) as [a|]; [|discriminate].
  destruct (api_get_project_details_run a p w) as (_ & _ & Hok).
  destruct (Api.get_project_details transport pydantic a p w) as [[d|e] w1];
    [|discriminate].
  intros H. inversion H; subst. cbn. split; [reflexivity|].
  exists a. split; [reflexivity|]. now apply (Hok d).
Qed.

End Upstream.
End SessionFacts.

(* ===================================================================== *)
(** * The specification's claims: codec and merges *)
(* ===================================================================== *)

Import StringFacts DictFacts CodecFacts MergeFacts RunFacts ToolFacts SessionFacts.

(** C1 (the code departs from it). The claim: the update loop of
    [update_vulnerability] overwrites an entry only with text that is not
    blank or with a non-null value that is not text, and a blank update
    keeps the snapshot's value. The loop's test [A and B or C] is true for
    every value that is not [None], so on the claim's own example the blank
    ["Severity"] replaces ["High"]: the merged record has ["Title"] new,
    ["Severity"] empty and ["Owner"] added, while the rule in the comment
    above the loop rejects the empty value. *)
Theorem C1_blank_update_overwrites :
  merge_vulnerability
    [("Title", PStr "Old"); ("Severity", PStr "High")]
    [("Title", PStr "New"); ("Severity", PStr EmptyString); ("Owner", PStr "alice")]
  = [("Title", PStr "New"); ("Severity", PStr EmptyString); ("Owner", PStr "alice")]
  /\ update_test (PStr EmptyString) = true
  /\ spec_update_test (PStr EmptyString) = false.
Proof. repeat split. Qed.

(** C2, as stated, fails: a value that holds a marker adds occurrences.
    The mapping [{"a": "#[b]#"}] has one entry and its block has two
    markers. *)
Lemma C2_marker_in_value :
  count_markers (_construct_dradis_response [("a", PStr "#[b]#")]) = 2
  /\ length [("a", PStr "#[b]#")] = 1.
Proof. split; reflexivity. Qed.

(** C2 (amended). For every field mapping the encoder yields exactly the
    field blocks of its entries in mapping order, each being ["#[" name
    "]#"], a CRLF, the text of the value and two CRLF; for a non-empty
    mapping the block ends with two CRLF; and when no name contains ["]#"]
    and no value's text contains ["#["], the block has exactly as many
    markers as the mapping has entries. The encoder is a total function. *)
Theorem C2_encoded_block (M : dict) :
  _construct_dradis_response M = blocks M
  /\ (M <> [] -> exists front, _construct_dradis_response M = front ++ CRLF ++ CRLF)
  /\ (Forall marker_free M -> count_markers (_construct_dradis_response M) = length M).
Proof.
  split; [apply construct_blocks|]. rewrite construct_blocks. split.
  - apply blocks_end.
  - intros Hfree. unfold count_markers.
    apply count_markers_blocks; [exact Hfree | apply blocks_length].
Qed.

Lemma C2_encoded_block_witness :
  count_markers (_construct_dradis_response [("Title", PStr "New"); ("Rating", PInt 5)]) = 2
  /\ exists front,
       _construct_dradis_response [("Title", PStr "New"); ("Rating", PInt 5)]
       = front ++ CRLF ++ CRLF.
Proof.
  destruct (C2_encoded_block [("Title", PStr "New"); ("Rating", PInt 5)])
    as (_ & Hend & Hcount).
  split.
  - apply Hcount. repeat constructor.
  - apply Hend. discriminate.
Defined.

(** C7. The merge is key-wise independent: the merged value at a key is
    settled by the snapshot's entry and the update's entry at that key
    (or their absence); two snapshots and two updates that agree at a key
    give the same result at that key. *)
Theorem C7_merge_keywise (S S' U U' : dict) (k : string) :
  wf_dict U -> wf_dict U' ->
  dict_get k S = dict_get k S' ->
  dict_get k U = dict_get k U' ->
  dict_get k (merge_vulnerability S U) = dict_get k (merge_vulnerability S' U')
  /\ dict_get k (merge_vulnerability S U) = merged_entry (dict_get k S) (dict_get k U).
Proof.
  intros HU HU' HS HUk.
  rewrite (merge_vulnerability_get U HU), (merge_vulnerability_get U' HU').
  now rewrite HS, HUk.
Qed.

Lemma C7_merge_keywise_witness :
  dict_get "Title"
    (merge_vulnerability [("Title", PStr "Old")] [("Title", PStr "New")])
  = dict_get "Title"
      (merge_vulnerability [("Title", PStr "Old"); ("Severity", PStr "High")]
                           [("Owner", PStr "alice"); ("Title", PStr "New")])
  /\ dict_get "Title"
       (merge_vulnerability [("Title", PStr "Old")] [("Title", PStr "New")])
     = merged_entry (Some (PStr "Old")) (Some (PStr "New")).
Proof.
  apply (C7_merge_keywise
           [("Title", PStr "Old")]
           [("Title", PStr "Old"); ("Severity", PStr "High")]
           [("Title", PStr "New")]
           [("Owner", PStr "alice"); ("Title", PStr "New")]
           "Title").
  - repeat constructor; simpl; intuition discriminate.
  - repeat constructor; simpl; intuition discriminate.
  - reflexivity.
  - reflexivity.
Defined.

(* ===================================================================== *)
(** * The specification's claims: tools and session *)
(* ===================================================================== *)

Section Claims.

Context (transport : list request -> request -> http_reply).
Context (pydantic : Pydantic).
Context (json_dumps : pyval -> string).

(** C3. When the read that [set_project p] issues fails (no connection,
    a status outside 200-299, or no JSON body), [set_project] raises and
    the session is what it was; if no project had been set, a following
    [get_project_details] still raises the precondition error. The id is
    committed only when the read succeeded. *)
Theorem C3_failed_set_project_keeps_session (p : Z) (w : world) :
  (forall a,
     api (server_state w) = Some a ->
     read_fails (transport (wire w)
                   (request_of a GET ("/pro/api/projects/" ++ str_of_int p) None None))
     = true ->
     exists e w',
       Server.set_project transport pydantic json_dumps p w = (Raise e, w')
       /\ server_state w' = server_state w
       /\ (project_id (server_state w) = None ->
           Server.get_project_details transport pydantic json_dumps w'
           = (Raise (ValueError Server.NO_PROJECT), w')))
  /\ (forall out w',
        Server.set_project transport pydantic json_dumps p w = (Ok out, w') ->
        project_id (server_state w') = Some p
        /\ exists a,
             api (server_state w) = Some a
             /\ read_fails (transport (wire w)
                              (request_of a GET ("/pro/api/projects/" ++ str_of_int p)
                                 None None))
                = false).
Proof.
  split.
  - intros a Ha Hfail. rewrite set_project_run, Ha.
    destruct (api_get_project_details_run transport pydantic a p w) as (Hst & Hraise & _).
    destruct (Hraise Hfail) as [e He].
    destruct (Api.get_project_details transport pydantic a p w) as [r w1];
      cbn [fst snd] in *; subst r.
    exists e, w1. repeat split; [exact Hst|].
    intros Hnone. unfold Server.get_project_details. apply bind_raise.
    apply require_project_unset. now rewrite Hst, Hnone.
  - intros out w'. apply set_project_commits.
Qed.

(** C4. With no active project, every project-scoped tool, on every
    argument list, raises the precondition error at once: the session and
    the wire are as before, so no request was issued. *)
Theorem C4_unset_project_fails_without_request (c : Server.tool_call) (w : world) :
  Server.project_scoped c = true ->
  project_id (server_state w) = None ->
  Server.call_tool transport pydantic json_dumps c w
  = (Raise (ValueError Server.NO_PROJECT), w).
Proof.
  intros Hc Hnone. apply guard_blocks; [exact Hc|]. now rewrite Hnone.
Qed.

(** C8. An active project id of 0 passes for no project: in a session
    whose id is 0, as after a successful [set_project 0], every
    project-scoped tool raises the precondition error of the unset case
    and sends nothing. *)
Theorem C8_project_zero_is_unset (c : Server.tool_call) (w : world) :
  Server.project_scoped c = true ->
  (project_id (server_state w) = Some 0%Z
   \/ exists w0 out,
        Server.set_project transport pydantic json_dumps 0%Z w0 = (Ok out, w)) ->
  Server.call_tool transport pydantic json_dumps c w
  = (Raise (ValueError Server.NO_PROJECT), w).
Proof.
  intros Hc Hzero.
  assert (Hid : project_id (server_state w) = Some 0%Z).
  { destruct Hzero as [H|(w0 & out & H)]; [exact H|].
    now apply set_project_commits in H. }
  apply guard_blocks; [exact Hc|]. now rewrite Hid.
Qed.

(** C5. [upsert_document_property] reads the property list and then
    takes the update path (PUT on the property's own address) exactly
    when some entry of the list maps the name to a value that is not
    null, and the create path (POST on the collection) otherwise; the two
    paths differ, and a list whose only entry maps the name to null has no
    such entry, so it leads to the create path. *)
Theorem C5_upsert_path (self : DradisAPI) (pid : Z) (n v : string) (w : world)
    (code : Z) (L : list dict) :
  transport (wire w) (request_of self GET "/pro/api/document_properties" (Some pid) None)
  = Response code (Some (PList (map PDict L))) ->
  is_success code = true ->
  let w1 := {| server_state := server_state w;
               wire := (wire w ++ [request_of self GET "/pro/api/document_properties"
                                     (Some pid) None])%list |} in
  let put := Api._request transport self PUT ("/pro/api/document_properties/" ++ n)
               (Some pid)
               (Some (PDict [("document_property", PDict [("value", PStr v)])])) w1 in
  let post := Api._request transport self POST "/pro/api/document_properties"
                (Some pid)
                (Some (PDict [("document_properties", PDict [(n, PStr v)])])) w1 in
  (has_property n L -> Api.upsert_document_property transport self pid n v w = put)
  /\ (~ has_property n L -> Api.upsert_document_property transport self pid n v w = post)
  /\ put <> post
  /\ ~ has_property n [[(n, PNone)]].
Proof.
  intros Hreply Hcode w1 put post.
  assert (Hrun : Api.upsert_document_property transport self pid n v w
                 = if existsb (fun prop => match dict_get n prop with
                                           | Some x => negb (is_none x)
                                           | None => false
                                           end) L
                   then put else post).
  { unfold Api.upsert_document_property, Api.get_document_properties.
    rewrite (bind_ok _ _ _ _ _ (request_ok transport _ _ _ _ _ _ _ _ Hreply Hcode)).
    fold w1. unfold bind at 1. cbn [py_iter lift].
    rewrite (property_exists_dicts n L). unfold bind at 1. cbn [lift].
    now destruct (existsb _ L). }
  assert (Hiff : existsb (fun prop => match dict_get n prop with
                                      | Some x => negb (is_none x)
                                      | None => false
                                      end) L = true <-> has_property n L).
  { rewrite existsb_exists. unfold has_property. split.
    - intros (prop & Hin & Hv). destruct (dict_get n prop) as [x|] eqn:Hx; [|discriminate].
      exists prop, x. split; [exact Hin|]. split; [exact Hx|].
      intros ->. discriminate.
    - intros (prop & x & Hin & Hx & Hnn). exists prop. split; [exact Hin|].
      rewrite Hx. now destruct x. }
  split; [|split; [|split]].
  - intros Hyes. rewrite Hrun. apply Hiff in Hyes. now rewrite Hyes.
  - intros Hno. rewrite Hrun. destruct (existsb _ L) eqn:He; [|reflexivity].
    exfalso. now apply Hno, Hiff.
  - intros Heq. apply (f_equal (fun r => wire (snd r))) in Heq.
    unfold put, post in Heq. rewrite !request_world in Heq. cbn [wire] in Heq.
    apply app_inv_head in Heq. discriminate Heq.
  - intros (prop & x & Hin & Hx & Hnn).
    destruct Hin as [<-|[]]. cbn in Hx. rewrite String.eqb_refl in Hx.
    inversion Hx. now subst.
Qed.

(** C6. The [create_vulnerability] tool drops every argument whose value
    is null before encoding and turns every other value into its text:
    the one request it sends carries the field blocks of the non-null
    arguments only, so a null argument is never written as an empty
    field. *)
Theorem C6_null_arguments_dropped (kwargs : dict) (w : world) (pid : Z) (a : DradisAPI) :
  project_id (server_state w) = Some pid -> pid <> 0%Z ->
  api (server_state w) = Some a ->
  let sent := filter (fun kv => negb (is_none (snd kv))) kwargs in
  wire (snd (Server.create_vulnerability transport pydantic json_dumps kwargs w))
  = (wire w
     ++ [request_of a POST "/pro/api/issues" (Some pid)
           (Some (PDict [("issue", PDict [("text", PStr (blocks sent))])]))])%list
  /\ stringify_kwargs kwargs = map (fun kv => (fst kv, PStr (py_str (snd kv)))) sent
  /\ (forall k v,
        In (k, v) (stringify_kwargs kwargs)
        <-> exists v0, In (k, v0) kwargs /\ v0 <> PNone /\ v = PStr (py_str v0)).
Proof.
  intros Hpid Hnz Ha sent. split; [|split].
  - unfold Server.create_vulnerability.
    rewrite (bind_ok _ _ _ _ _ (require_project_set w pid Hpid Hnz)). cbv beta.
    unfold bind at 1. rewrite get_api_run, Ha.
    rewrite bind_pure_world by reflexivity.
    unfold Api.create_vulnerability.
    rewrite bind_pure_world by reflexivity.
    rewrite request_world. cbn [wire].
    now rewrite construct_stringified, construct_blocks.
  - reflexivity.
  - intros k v. apply stringify_kwargs_in.
Qed.

(** C9. The content-block update has no blank check: with an update map
    of strings, every entry of the map, blank or not, becomes the entry of
    the fetched block's fields under its key, and the block that is sent
    holds its field block; a blank value goes out as an empty field. *)
Theorem C9_content_block_blank_overwrites (self : DradisAPI) (pid block_id : Z)
    (u : UpdateContentBlock) (w : world) (code : Z) (body : pyval) (B : ContentBlock) :
  transport (wire w)
    (request_of self GET ("/pro/api/content_blocks/" ++ str_of_int block_id) (Some pid) None)
  = Response code (Some body) ->
  is_success code = true ->
  construct (validate_ContentBlock pydantic) body = Ok B ->
  wf_dict (ucb_content u) ->
  Forall (fun kv => isinstance_str (snd kv) = true) (ucb_content u) ->
  let merged := merge_content_block (cb_fields B) (ucb_content u) in
  wire (snd (Api.update_content_block transport pydantic self pid block_id u w))
  = (wire w
     ++ [request_of self GET ("/pro/api/content_blocks/" ++ str_of_int block_id)
           (Some pid) None;
         request_of self PUT ("/pro/api/content_blocks/" ++ str_of_int block_id)
           (Some pid)
           (Some (PDict [("content_block",
                          PDict [("block_group", PStr (ucb_block_group u));
                                 ("content",
                                  PStr (_construct_dradis_response merged))])]))])%list
  /\ forall k v,
       In (k, v) (ucb_content u) ->
       dict_get k merged = Some v
       /\ exists front back,
            _construct_dradis_response merged = front ++ field_block k v ++ back.
Proof.
  intros Hreply Hcode HB Hwf Hstr merged. split.
  - unfold Api.update_content_block, Api.get_content_block.
    unfold bind at 1.
    rewrite (bind_ok _ _ _ _ _ (request_ok transport _ _ _ _ _ _ _ _ Hreply Hcode)).
    unfold lift at 1. rewrite HB.
    rewrite bind_pure_world by reflexivity.
    rewrite request_world. cbn [wire server_state].
    now rewrite <- app_assoc.
  - intros k v Hin.
    assert (Hget : dict_get k merged = Some v).
    { unfold merged. rewrite (merge_content_block_get _ Hwf).
      rewrite (dict_get_present _ _ _ Hwf Hin).
      rewrite Forall_forall in Hstr. specialize (Hstr _ Hin). cbn [snd] in Hstr.
      now rewrite Hstr. }
    split; [exact Hget|].
    apply construct_entry. now apply dict_get_some_in.
Qed.

(** C10 (amended). A [create_project] that returns has sent one request,
    the POST that creates the project, and has stored the id of the
    project the upstream answered with as the active project, whatever id
    was there before. When that id is not 0, every project-scoped tool
    called next passes the guard with the new id and only sends requests
    that name it. *)
Theorem C10_create_project_commits (name : string)
    (team_id report_template_properties_id : option Z)
    (author_ids : option (list Z)) (template : option string)
    (w w' : world) (out : string) :
  Server.create_project transport pydantic json_dumps name team_id
    report_template_properties_id author_ids template w = (Ok out, w') ->
  exists (a : DradisAPI) (project_data : CreateProject) (code : Z) (response : pyval)
         (project : ProjectDetails),
    api (server_state w) = Some a
    /\ transport (wire w)
         (request_of a POST "/pro/api/projects" None
            (Some (PDict [("project", dump_CreateProject project_data)])))
       = Response code (Some response)
    /\ is_success code = true
    /\ construct (validate_ProjectDetails pydantic) response = Ok project
    /\ wire w'
       = (wire w
          ++ [request_of a POST "/pro/api/projects" None
                (Some (PDict [("project", dump_CreateProject project_data)]))])%list
    /\ project_id (server_state w') = Some (pd_id project)
    /\ (pd_id project <> 0%Z ->
        Server.require_project w' = (Ok (pd_id project), w')
        /\ forall c, Server.project_scoped c = true ->
             exists l,
               wire (snd (Server.call_tool transport pydantic json_dumps c w'))
               = (wire w' ++ l)%list
               /\ Forall (addresses (pd_id project)) l).
Proof.
  unfold Server.create_project. intros H.
  apply bind_inv_ok in H. destruct H as (a & w1 & Hapi & H).
  rewrite get_api_run in Hapi.
  destruct (api (server_state w)) as [a'|] eqn:Ha; [|discriminate].
  inversion Hapi; subst a' w1. clear Hapi.
  apply bind_inv_ok in H. destruct H as (cfg & w1 & Hcfg & H).
  rewrite get_config_run in Hcfg.
  destruct (config (server_state w)) as [cfg'|]; [|discriminate].
  inversion Hcfg; subst cfg' w1. clear Hcfg.
  cbv zeta in H.
  match type of H with
  | (match ?t with Some _ => _ | None => _ end) _ = _ => destruct t as [team|]
  end; [|discriminate].
  apply bind_inv_ok in H. destruct H as (project & w2 & Hcreate & H).
  unfold Api.create_project in Hcreate.
  apply bind_inv_ok in Hcreate. destruct Hcreate as (response & w1 & Hreq & Hval).
  apply request_inv in Hreq. destruct Hreq as (code & Hreply & Hcode & ->).
  apply lift_inv in Hval. destruct Hval as [Hval ->].
  apply bind_inv_ok in H. destruct H as ([] & w3 & Hwrite & H).
  unfold write_project_id in Hwrite. inversion Hwrite; subst w3. clear Hwrite.
  unfold ret in H. inversion H; subst w'. clear H.
  eexists a, _, code, response, project.
  split; [reflexivity|]. split; [exact Hreply|]. split; [exact Hcode|].
  split; [now symmetry|]. split; [reflexivity|]. split; [reflexivity|].
  intros Hnz.
  match goal with
  | |- Server.require_project ?w3 = _ /\ _ =>
      assert (Hreq : Server.require_project w3 = (Ok (pd_id project), w3))
        by (now apply require_project_set)
  end.
  split; [exact Hreq|]. intros c Hc.
  destruct (scoped_tool_addresses transport pydantic json_dumps c _ _ Hc Hreq)
    as (l & Hl & HP & _).
  now exists l.
Qed.

End Claims.

(* ===================================================================== *)
(** * The claims on the sample deployment *)
(* ===================================================================== *)

Lemma C3_failed_set_project_witness :
  (exists e w',
     Server.set_project Sample.sample_upstream Sample.strict Sample.dumps 42%Z Sample.fresh
     = (Raise e, w')
     /\ server_state w' = server_state Sample.fresh
     /\ Server.get_project_details Sample.sample_upstream Sample.strict Sample.dumps w'
        = (Raise (ValueError Server.NO_PROJECT), w'))
  /\ project_id
       (server_state
          (snd (Server.set_project Sample.sample_upstream Sample.strict Sample.dumps 0%Z
                  Sample.first_created)))
     = Some 0%Z.
Proof.
  split.
  - destruct (C3_failed_set_project_keeps_session
                Sample.sample_upstream Sample.strict Sample.dumps 42%Z Sample.fresh)
      as [Hfail _].
    destruct (Hfail Sample.sample_api eq_refl eq_refl) as (e & w' & Hrun & Hst & Hget).
    exists e, w'. repeat split; [exact Hrun | exact Hst | apply Hget; reflexivity].
  - destruct (C3_failed_set_project_keeps_session
                Sample.sample_upstream Sample.strict Sample.dumps 0%Z Sample.first_created)
      as [_ Hok].
    refine (proj1 (Hok (Sample.dumps (PDict [("message", PStr "Project ID set to 0")]))
                       _ _)).
    reflexivity.
Defined.

Lemma C4_unset_project_witness :
  Server.call_tool Sample.sample_upstream Sample.strict Sample.dumps
    (Server.Call_create_vulnerability [("Rating", PStr "High")]) Sample.fresh
  = (Raise (ValueError Server.NO_PROJECT), Sample.fresh).
Proof.
  apply (C4_unset_project_fails_without_request
           Sample.sample_upstream Sample.strict Sample.dumps); reflexivity.
Defined.

Lemma C5_upsert_path_witness :
  (* project 1: the only entry maps "owner" to null, so the property is created *)
  Api.upsert_document_property Sample.sample_upstream Sample.sample_api 1%Z "owner" "bob"
    Sample.fresh
  = Api._request Sample.sample_upstream Sample.sample_api POST
      "/pro/api/document_properties" (Some 1%Z)
      (Some (PDict [("document_properties", PDict [("owner", PStr "bob")])]))
      {| server_state := server_state Sample.fresh;
         wire := [request_of Sample.sample_api GET "/pro/api/document_properties"
                    (Some 1%Z) None] |}
  (* project 2: "owner" has a value, so the property is updated *)
  /\ Api.upsert_document_property Sample.sample_upstream Sample.sample_api 2%Z "owner" "bob"
       Sample.fresh
     = Api._request Sample.sample_upstream Sample.sample_api PUT
         "/pro/api/document_properties/owner" (Some 2%Z)
         (Some (PDict [("document_property", PDict [("value", PStr "bob")])]))
         {| server_state := server_state Sample.fresh;
            wire := [request_of Sample.sample_api GET "/pro/api/document_properties"
                       (Some 2%Z) None] |}.
Proof.
  split.
  - destruct (C5_upsert_path Sample.sample_upstream Sample.sample_api 1%Z "owner" "bob"
                Sample.fresh 200%Z [[("owner", PNone)]] eq_refl eq_refl)
      as (_ & Hcreate & _ & Hnull).
    apply Hcreate. exact Hnull.
  - destruct (C5_upsert_path Sample.sample_upstream Sample.sample_api 2%Z "owner" "bob"
                Sample.fresh 200%Z [[("owner", PStr "alice")]] eq_refl eq_refl)
      as (Hupdate & _ & _ & _).
    apply Hupdate. exists [("owner", PStr "alice")], (PStr "alice").
    split; [now left|]. split; [reflexivity | discriminate].
Defined.

Lemma C6_null_arguments_dropped_witness :
  wire (snd (Server.create_vulnerability Sample.sample_upstream Sample.strict Sample.dumps
               [("Rating", PStr "High"); ("CVE", PNone)] Sample.second_created))
  = (wire Sample.second_created
     ++ [request_of Sample.sample_api POST "/pro/api/issues" (Some 1%Z)
           (Some (PDict [("issue",
                          PDict [("text", PStr (blocks [("Rating", PStr "High")]))])]))])%list
  /\ stringify_kwargs [("Rating", PStr "High"); ("CVE", PNone)] = [("Rating", PStr "High")].
Proof.
  destruct (C6_null_arguments_dropped
              Sample.sample_upstream Sample.strict Sample.dumps
              [("Rating", PStr "High"); ("CVE", PNone)] Sample.second_created
              1%Z Sample.sample_api eq_refl ltac:(discriminate) eq_refl)
    as (Hwire & Hargs & _).
  split; [exact Hwire | exact Hargs].
Defined.

Lemma C8_project_zero_witness :
  let w := snd (Server.set_project Sample.sample_upstream Sample.strict Sample.dumps 0%Z
                  Sample.first_created) in
  Server.call_tool Sample.sample_upstream Sample.strict Sample.dumps
    (Server.Call_get_vulnerabilities None) w
  = (Raise (ValueError Server.NO_PROJECT), w).
Proof.
  intros w.
  apply (C8_project_zero_is_unset Sample.sample_upstream Sample.strict Sample.dumps);
    [reflexivity|].
  right. exists Sample.first_created.
  exists (Sample.dumps (PDict [("message", PStr "Project ID set to 0")])).
  reflexivity.
Defined.

Lemma C9_content_block_blank_witness :
  let u := {| ucb_block_group := "Conclusions";
              ucb_content := [("Type", PStr EmptyString)] |} in
  let merged := merge_content_block (cb_fields Sample.block7) (ucb_content u) in
  dict_get "Type" merged = Some (PStr EmptyString)
  /\ exists front back,
       _construct_dradis_response merged
       = front ++ ("#[Type]#" ++ CRLF ++ CRLF ++ CRLF) ++ back.
Proof.
  intros u merged.
  destruct (C9_content_block_blank_overwrites
              Sample.sample_upstream Sample.strict Sample.sample_api 1%Z 7%Z u
              Sample.fresh 200%Z Sample.block_json Sample.block7
              eq_refl eq_refl eq_refl)
    as (_ & Hentries).
  - repeat constructor; simpl; intuition discriminate.
  - repeat constructor.
  - apply (Hentries "Type" (PStr EmptyString)). now left.
Defined.

(** C10, as stated, fails when the upstream numbers the new project 0:
    the call returns and stores 0, and the project-scoped tool called
    next raises the precondition error without sending anything. *)
Lemma C10_project_zero_not_addressed :
  (exists out,
     Server.create_project Sample.sample_upstream Sample.strict Sample.dumps
       "acme" None None None None Sample.fresh
     = (Ok out, Sample.first_created))
  /\ project_id (server_state Sample.first_created) = Some 0%Z
  /\ Server.get_project_details Sample.sample_upstream Sample.strict Sample.dumps
       Sample.first_created
     = (Raise (ValueError Server.NO_PROJECT), Sample.first_created).
Proof.
  split; [|split].
  - eexists. vm_compute. reflexivity.
  - reflexivity.
  - vm_compute. reflexivity.
Qed.

Lemma C10_create_project_commits_witness :
  project_id (server_state Sample.second_created) = Some 1%Z
  /\ Server.require_project Sample.second_created = (Ok 1%Z, Sample.second_created).
Proof.
  assert (Hrun : exists out,
            Server.create_project Sample.sample_upstream Sample.strict Sample.dumps
              "beta" None None None None Sample.first_created
            = (Ok out, Sample.second_created)) by (eexists; vm_compute; reflexivity).
  destruct Hrun as [out Hrun].
  destruct (C10_create_project_commits Sample.sample_upstream Sample.strict Sample.dumps
              _ _ _ _ _ _ _ _ Hrun)
    as (a & data & code & response & project & _ & _ & _ & _ & _ & Hid & Hnext).
  assert (Hone : pd_id project = 1%Z).
  { change (project_id (server_state Sample.second_created)) with (Some 1%Z) in Hid.
    now inversion Hid. }
  rewrite Hone in Hid, Hnext. split; [exact Hid|].
  apply Hnext. discriminate.
Defined.

(* ===================================================================== *)
(** * Further properties: dictionaries, merges and the encoder *)
(* ===================================================================== *)

Module MoreDictFacts.

Lemma keys_set_present (k : string) (v : pyval) (d : dict) :
  In k (keys d) -> keys (dict_set k v d) = keys d.
Proof.
  induction d as [|[k' v'] d IH]; cbn [keys map fst dict_set]; intros Hin; [contradiction|].
  destruct (String.eqb_spec k k') as [->|Hne]; [reflexivity|].
  cbn [map fst]. f_equal. apply IH. destruct Hin as [Heq|Hin]; [congruence | exact Hin].
Qed.

Lemma dict_set_absent (k : string) (v : pyval) (d : dict) :
  ~ In k (keys d) -> dict_set k v d = (d ++ [(k, v)])%list.
Proof.
  induction d as [|[k' v'] d IH]; cbn [keys map fst dict_set app]; intros Hnot; [reflexivity|].
  destruct (String.eqb_spec k k') as [->|Hne].
  - exfalso. apply Hnot. now left.
  - f_equal. apply IH. intros Hin. apply Hnot. now right.
Qed.

Lemma dict_set_same (k : string) (v : pyval) (d : dict) :
  dict_get k d = Some v -> dict_set k v d = d.
Proof.
  induction d as [|[k' v'] d IH]; cbn [dict_get dict_set]; [discriminate|].
  destruct (String.eqb_spec k k') as [->|Hne]; intros H.
  - now inversion H.
  - f_equal. now apply IH.
Qed.

Lemma keys_app (d1 d2 : dict) : keys (d1 ++ d2)%list = (keys d1 ++ keys d2)%list.
Proof. unfold keys. apply map_app. Qed.

(** Assigning to a key keeps the keys unique and the old keys in place. *)
Lemma keys_set_extends (k : string) (v : pyval) (d : dict) :
  exists added,
    keys (dict_set k v d) = (keys d ++ added)%list
    /\ (forall x, In x added -> x = k /\ ~ In k (keys d)).
Proof.
  destruct (in_dec string_dec k (keys d)) as [Hin|Hnot].
  - exists []. rewrite keys_set_present by exact Hin. rewrite app_nil_r.
    split; [reflexivity | intros x []].
  - exists [k]. rewrite dict_set_absent by exact Hnot. rewrite keys_app.
    split; [reflexivity|]. intros x [<-|[]]. now split.
Qed.

Lemma wf_dict_set (k : string) (v : pyval) (d : dict) :
  wf_dict d -> wf_dict (dict_set k v d).
Proof.
  unfold wf_dict. intros Hwf.
  destruct (in_dec string_dec k (keys d)) as [Hin|Hnot].
  - now rewrite keys_set_present.
  - rewrite dict_set_absent by exact Hnot. rewrite keys_app.
    apply NoDup_app; [exact Hwf | repeat constructor; intros [] |].
    intros x Hx [<-|[]]. contradiction.
Qed.

Section Guarded.

(** Both merges are a loop of guarded assignments. *)
Variable test : pyval -> bool.

Let step (d : dict) (kv : string * pyval) : dict :=
  if test (snd kv) then dict_set (fst kv) (snd kv) d else d.

Lemma guarded_wf (U S : dict) : wf_dict S -> wf_dict (fold_left step U S).
Proof.
  revert S. induction U as [|kv U IH]; intros S Hwf; [exact Hwf|].
  cbn [fold_left]. apply IH. unfold step.
  destruct (test (snd kv)); [now apply wf_dict_set | exact Hwf].
Qed.

Lemma guarded_keys (U S : dict) :
  exists added,
    keys (fold_left step U S) = (keys S ++ added)%list
    /\ (forall x, In x added -> In x (keys U) /\ ~ In x (keys S)).
Proof.
  revert S. induction U as [|kv U IH]; intros S.
  - exists []. cbn. rewrite app_nil_r. split; [reflexivity | intros x []].
  - cbn [fold_left]. destruct (IH (step S kv)) as (added & Hkeys & Hadded).
    unfold step in *. destruct (test (snd kv)).
    + destruct (keys_set_extends (fst kv) (snd kv) S) as (one & Hone & Hfresh).
      exists (one ++ added)%list. rewrite Hkeys, Hone, app_assoc. split; [reflexivity|].
      intros x Hx. apply in_app_or in Hx. destruct Hx as [Hx|Hx].
      * destruct (Hfresh x Hx) as [-> Hnot]. split; [now left | exact Hnot].
      * destruct (Hadded x Hx) as [HinU Hnot]. split; [now right|].
        intros HinS. apply Hnot. rewrite Hone. apply in_or_app. now left.
    + exists added. split; [exact Hkeys|].
      intros x Hx. destruct (Hadded x Hx) as [HinU Hnot]. split; [now right | exact Hnot].
Qed.

(** On a record that already holds every value the update would write,
    the loop changes nothing. *)
Lemma guarded_fixed (U M : dict) :
  (forall k v, In (k, v) U -> test v = true -> dict_get k M = Some v) ->
  fold_left step U M = M.
Proof.
  induction U as [|[k v] U IH]; intros Hheld; [reflexivity|].
  cbn [fold_left]. unfold step at 2. cbn [fst snd].
  destruct (test v) eqn:Ht.
  - rewrite dict_set_same by (apply Hheld; [now left | exact Ht]).
    apply IH. intros k' v' Hin. apply Hheld. now right.
  - apply IH. intros k' v' Hin. apply Hheld. now right.
Qed.

(** With keys that are new to the record and to each other, the loop
    appends the values that pass the test, in update order. *)
Lemma guarded_fresh (U S : dict) :
  NoDup (keys S ++ keys U) ->
  fold_left step U S = (S ++ filter (fun kv => test (snd kv)) U)%list.
Proof.
  revert S. induction U as [|[k v] U IH]; intros S Hnd.
  - cbn. now rewrite app_nil_r.
  - cbn [fold_left filter]. unfold step at 2. cbn [fst snd].
    cbn [keys map fst] in Hnd.
    assert (Hk : ~ In k (keys S)).
    { intros Hin. apply NoDup_remove_2 in Hnd. apply Hnd. apply in_or_app. now left. }
    destruct (test v).
    + rewrite dict_set_absent by exact Hk.
      rewrite IH.
      * now rewrite <- app_assoc.
      * rewrite keys_app, <- app_assoc. exact Hnd.
    + apply IH. now apply NoDup_remove_1 in Hnd.
Qed.

End Guarded.

End MoreDictFacts.

Import MoreDictFacts.

(** X1. Both merges keep a record well formed and its keys in place:
    after the update loop of [update_vulnerability], and after that of
    [update_content_block], the keys are still unique, the keys of the
    fetched record come first in their old order, and the keys behind
    them are keys of the update that the record did not have. *)
Theorem X1_merges_keep_keys (S U : dict) :
  wf_dict S ->
  (wf_dict (merge_vulnerability S U)
   /\ exists added,
        keys (merge_vulnerability S U) = (keys S ++ added)%list
        /\ forall x, In x added -> In x (keys U) /\ ~ In x (keys S))
  /\ (wf_dict (merge_content_block S U)
      /\ exists added,
           keys (merge_content_block S U) = (keys S ++ added)%list
           /\ forall x, In x added -> In x (keys U) /\ ~ In x (keys S)).
Proof.
  intros Hwf. split; split.
  - apply (guarded_wf update_test U S Hwf).
  - apply (guarded_keys update_test U S).
  - apply (guarded_wf isinstance_str U S Hwf).
  - apply (guarded_keys isinstance_str U S).
Qed.

Lemma X1_merges_keep_keys_witness :
  keys (merge_vulnerability [("Title", PStr "Old"); ("Severity", PStr "High")]
          [("Owner", PStr "alice"); ("Title", PStr "New")])
  = ["Title"; "Severity"; "Owner"]
  /\ wf_dict (merge_content_block [("Title", PStr "Old"); ("Severity", PStr "High")]
                [("Owner", PStr "alice"); ("Title", PStr "New")]).
Proof.
  destruct (X1_merges_keep_keys
              [("Title", PStr "Old"); ("Severity", PStr "High")]
              [("Owner", PStr "alice"); ("Title", PStr "New")])
    as ((_ & _) & (Hwf & _)).
  - repeat constructor; simpl; intuition discriminate.
  - split; [reflexivity | exact Hwf].
Defined.

(** X2. On an empty record the update loop of [update_vulnerability]
    yields the update itself without its [None] entries, in the update's
    order. *)
Theorem X2_merge_seeds_empty_record (U : dict) :
  wf_dict U ->
  merge_vulnerability [] U = filter (fun kv => negb (is_none (snd kv))) U.
Proof.
  intros Hwf. unfold merge_vulnerability.
  rewrite (guarded_fresh update_test U []) by exact Hwf.
  cbn [app]. apply filter_ext. intros kv. apply update_test_not_none.
Qed.

Lemma X2_merge_seeds_empty_record_witness :
  merge_vulnerability [] [("Title", PStr "New"); ("CVE", PNone); ("Rating", PInt 5)]
  = [("Title", PStr "New"); ("Rating", PInt 5)].
Proof.
  apply (X2_merge_seeds_empty_record
           [("Title", PStr "New"); ("CVE", PNone); ("Rating", PInt 5)]).
  repeat constructor; simpl; intuition discriminate.
Defined.

(** X3. Applying the same update a second time changes nothing: the
    update loop of [update_vulnerability] is idempotent. *)
Theorem X3_merge_idempotent (S U : dict) :
  wf_dict U ->
  merge_vulnerability (merge_vulnerability S U) U = merge_vulnerability S U.
Proof.
  intros Hwf. unfold merge_vulnerability at 1.
  apply (guarded_fixed update_test). intros k v Hin Ht.
  rewrite (merge_vulnerability_get U Hwf), (dict_get_present _ _ _ Hwf Hin).
  cbn [merged_entry]. now rewrite Ht.
Qed.

Lemma X3_merge_idempotent_witness :
  merge_vulnerability
    (merge_vulnerability [("Title", PStr "Old")] [("Owner", PStr "alice"); ("Title", PStr "New")])
    [("Owner", PStr "alice"); ("Title", PStr "New")]
  = merge_vulnerability [("Title", PStr "Old")] [("Owner", PStr "alice"); ("Title", PStr "New")].
Proof.
  apply (X3_merge_idempotent [("Title", PStr "Old")]
           [("Owner", PStr "alice"); ("Title", PStr "New")]).
  repeat constructor; simpl; intuition discriminate.
Defined.

(** X4. The encoder works entry by entry: the block of two mappings put
    one after the other is the two blocks put one after the other, and
    the length of a block is the sum, over the entries, of the lengths of
    name and value text plus the ten characters of marker and line
    breaks. *)
Theorem X4_encoder_composes (d1 d2 : dict) :
  _construct_dradis_response (d1 ++ d2)%list
  = _construct_dradis_response d1 ++ _construct_dradis_response d2
  /\ String.length (_construct_dradis_response d1)
     = list_sum (map (fun kv => String.length (fst kv)
                                + String.length (py_str (snd kv)) + 10) d1).
Proof.
  split; [apply construct_app|].
  rewrite construct_blocks. induction d1 as [|kv d1 IH]; [reflexivity|].
  cbn [blocks map list_sum fold_right]. rewrite length_append, IH. f_equal.
  unfold field_block, CRLF. rewrite !length_append. cbn [String.length]. lia.
Qed.

(** X5. The comprehension the vulnerability tools apply to their
    arguments yields text values only, each of which passes the test of
    the update loop, keeps the names of the non-null arguments in order,
    and changes nothing when applied again. *)
Theorem X5_stringify_kwargs_normalises (kwargs : dict) :
  Forall (fun kv => isinstance_str (snd kv) = true /\ update_test (snd kv) = true)
         (stringify_kwargs kwargs)
  /\ keys (stringify_kwargs kwargs)
     = keys (filter (fun kv => negb (is_none (snd kv))) kwargs)
  /\ stringify_kwargs (stringify_kwargs kwargs) = stringify_kwargs kwargs.
Proof.
  unfold stringify_kwargs.
  set (l := filter (fun kv => negb (is_none (snd kv))) kwargs). clearbody l.
  split; [|split].
  - induction l as [|[k v] l IH]; cbn [map fst snd]; constructor; [|exact IH].
    split; [reflexivity | now rewrite update_test_not_none].
  - unfold keys. rewrite map_map. reflexivity.
  - induction l as [|[k v] l IH]; [reflexivity|].
    cbn [map filter fst snd is_none negb py_str]. now rewrite IH.
Qed.

(* ===================================================================== *)
(** * Further properties: requests, tools and session *)
(* ===================================================================== *)

Module MoreRunFacts.

Section Upstream.

Context (transport : list request -> request -> http_reply).
Context (pydantic : Pydantic).
Context (json_dumps : pyval -> string).

Lemma is_success_range (code : Z) :
  is_success code = true <-> (200 <= code <= 299)%Z.
Proof. unfold is_success. rewrite andb_true_iff, !Z.leb_le. tauto. Qed.

(** [_request] by the reply. *)
Lemma request_run self method_ endpoint project_id json (w : world) :
  Api._request transport self method_ endpoint project_id json w
  = (match transport (wire w) (request_of self method_ endpoint project_id json) with
     | ConnectionFailed => Raise (NetworkError (base_url self ++ endpoint))
     | Response code body =>
         if is_success code
         then match body with
              | Some j => Ok j
              | None => Raise (NetworkError (base_url self ++ endpoint))
              end
         else Raise (HTTPStatusError code (base_url self ++ endpoint))
     end,
     {| server_state := server_state w;
        wire := (wire w ++ [request_of self method_ endpoint project_id json])%list |}).
Proof.
  unfold Api._request, request_of.
  destruct (transport _ _) as [|code [j|]]; try reflexivity;
    destruct (is_success code); reflexivity.
Qed.

(** The verifying read of a project, by the reply. *)
Lemma api_get_project_details_eq (a : DradisAPI) (p : Z) (w : world) :
  Api.get_project_details transport pydantic a p w
  = (match fst (Api._request transport a GET ("/pro/api/projects/" ++ str_of_int p)
                  None None w) with
     | Ok response => construct (validate_ProjectDetails pydantic) response
     | Raise e => Raise e
     end,
     {| server_state := server_state w;
        wire := (wire w ++ [request_of a GET ("/pro/api/projects/" ++ str_of_int p)
                              None None])%list |}).
Proof.
  unfold Api.get_project_details, bind. rewrite request_run. cbn [fst].
  destruct (transport _ _) as [|code [j|]]; try reflexivity;
    destruct (is_success code); reflexivity.
Qed.

End Upstream.
End MoreRunFacts.

Import MoreRunFacts.

Section MoreClaims.

Context (transport : list request -> request -> http_reply).
Context (pydantic : Pydantic).
Context (json_dumps : pyval -> string).

(** X6. [_request] puts exactly its own request on the wire and leaves
    the session alone, whatever the reply. It returns the body exactly
    when the reply has a status from 200 to 299 and a JSON body; any other
    status raises [HTTPStatusError] with that status, whatever the body;
    no connection, or a 2xx reply whose body is not JSON, raises the
    network error. *)
Theorem X6_request_outcome (self : DradisAPI) (method_ : method) (endpoint : string)
    (project_id : option Z) (json : option pyval) (w : world) :
  let req := request_of self method_ endpoint project_id json in
  let run := Api._request transport self method_ endpoint project_id json w in
  snd run = {| server_state := server_state w; wire := (wire w ++ [req])%list |}
  /\ (forall body,
        fst run = Ok body
        <-> exists code,
              transport (wire w) req = Response code (Some body)
              /\ (200 <= code <= 299)%Z)
  /\ (forall code body,
        transport (wire w) req = Response code body ->
        ~ (200 <= code <= 299)%Z ->
        fst run = Raise (HTTPStatusError code (base_url self ++ endpoint)))
  /\ (transport (wire w) req = ConnectionFailed
        \/ (exists code, transport (wire w) req = Response code None
                         /\ (200 <= code <= 299)%Z) ->
        fst run = Raise (NetworkError (base_url self ++ endpoint))).
Proof.
  intros req run. unfold run. rewrite request_run. fold req. cbn [fst snd].
  split; [reflexivity|]. split; [|split].
  - intros body. split.
    + destruct (transport (wire w) req) as [|code [j|]]; try discriminate;
        destruct (is_success code) eqn:Hc; try discriminate.
      intros H. inversion H; subst. exists code. split; [reflexivity|].
      now apply is_success_range.
    + intros (code & -> & Hc). apply is_success_range in Hc. now rewrite Hc.
  - intros code body -> Hc.
    destruct (is_success code) eqn:Hs; [|reflexivity].
    exfalso. now apply Hc, is_success_range.
  - intros [->|(code & -> & Hc)]; [reflexivity|].
    apply is_success_range in Hc. now rewrite Hc.
Qed.

(** X7. Only [set_project] and [create_project] touch the session: every
    project-scoped tool, whatever it is given and whatever the upstream
    answers, leaves the active project, the settings and the client as they
    were, and only adds to the requests sent. *)
Theorem X7_scoped_tools_keep_session (c : Server.tool_call) (w : world) :
  Server.project_scoped c = true ->
  server_state (snd (Server.call_tool transport pydantic json_dumps c w)) = server_state w
  /\ exists l,
       wire (snd (Server.call_tool transport pydantic json_dumps c w)) = (wire w ++ l)%list.
Proof.
  intros Hc. destruct (optint_truthy (project_id (server_state w))) eqn:Ht.
  - destruct (project_id (server_state w)) as [p|] eqn:Hp; [|discriminate].
    cbn in Ht. apply negb_true_iff in Ht. apply Z.eqb_neq in Ht.
    destruct (scoped_tool_addresses transport pydantic json_dumps c w p Hc
                (require_project_set w p Hp Ht)) as (l & Hl & _ & Hs).
    split; [exact Hs | now exists l].
  - rewrite (guard_blocks transport pydantic json_dumps c w Hc Ht).
    split; [reflexivity|]. exists []. cbn. now rewrite app_nil_r.
Qed.

(** X8. In a session whose client was never set up, every tool ends in a
    [ValueError] with the session untouched and nothing sent. *)
Theorem X8_no_client_no_request (c : Server.tool_call) (w : world) :
  api (server_state w) = None ->
  exists msg,
    Server.call_tool transport pydantic json_dumps c w = (Raise (ValueError msg), w).
Proof.
  intros Hapi.
  assert (Hget : Server.get_api w
                 = (Raise (ValueError "API not initialized. Check your configuration."), w)).
  { rewrite get_api_run. now rewrite Hapi. }
  destruct (Server.project_scoped c) eqn:Hc.
  - destruct (optint_truthy (project_id (server_state w))) eqn:Ht.
    + destruct (project_id (server_state w)) as [p|] eqn:Hp; [|discriminate].
      cbn in Ht. apply negb_true_iff in Ht. apply Z.eqb_neq in Ht.
      pose proof (require_project_set w p Hp Ht) as Hreq.
      eexists.
      destruct c; try discriminate Hc; cbn [Server.call_tool];
        unfold Server.get_project_details, Server.create_vulnerability,
          Server.get_vulnerabilities, Server.get_all_vulnerability_details,
          Server.get_vulnerability, Server.update_vulnerability,
          Server.get_content_blocks, Server.update_content_block,
          Server.get_document_properties, Server.upsert_document_property;
        rewrite (bind_ok _ _ _ _ _ Hreq); cbv beta;
        apply bind_raise; exact Hget.
    + eexists. now apply guard_blocks.
  - eexists. destruct c; try discriminate Hc; cbn [Server.call_tool].
    + unfold Server.set_project. apply bind_raise. exact Hget.
    + unfold Server.create_project. apply bind_raise. exact Hget.
Qed.


(** X9. With an active project, every request a project-scoped tool
    sends names that project: it carries the project header with the
    active id, or it is the read of that very project. *)
Theorem X9_scoped_requests_name_project (c : Server.tool_call) (w : world) (pid : Z) :
  Server.project_scoped c = true ->
  project_id (server_state w) = Some pid -> pid <> 0%Z ->
  exists l,
    wire (snd (Server.call_tool transport pydantic json_dumps c w)) = (wire w ++ l)%list
    /\ Forall (addresses pid) l.
Proof.
  intros Hc Hp Hnz.
  destruct (scoped_tool_addresses transport pydantic json_dumps c w pid Hc
              (require_project_set w pid Hp Hnz)) as (l & Hl & HP & _).
  now exists l.
Qed.

(** X10. When the read of project [p] is answered with a valid project,
    [set_project p] returns, has sent that one read (without a project
    header), and the session holds [p] itself as the active project, with
    settings and client untouched. *)
Theorem X10_set_project_success (p : Z) (w : world) (a : DradisAPI)
    (code : Z) (body : pyval) (details : ProjectDetails) :
  api (server_state w) = Some a ->
  transport (wire w) (request_of a GET ("/pro/api/projects/" ++ str_of_int p) None None)
  = Response code (Some body) ->
  (200 <= code <= 299)%Z ->
  construct (validate_ProjectDetails pydantic) body = Ok details ->
  Server.set_project transport pydantic json_dumps p w
  = (Ok (json_dumps (PDict [("message", PStr ("Project ID set to " ++ str_of_int p))])),
     {| server_state := {| project_id := Some p;
                           config := config (server_state w);
                           api := api (server_state w) |};
        wire := (wire w ++ [mkRequest GET (base_url a ++ "/pro/api/projects/" ++ str_of_int p)
                              [] None])%list |}).
Proof.
  intros Ha Hreply Hcode Hvalid.
  rewrite set_project_run, Ha, api_get_project_details_eq, request_run, Hreply.
  apply is_success_range in Hcode. rewrite Hcode. cbn [fst]. rewrite Hvalid.
  cbn [server_state wire]. now rewrite Ha.
Qed.

(** X11. [create_project] without a team id and without a usable default
    (none configured, or a default of 0) raises the [ValueError] about the
    team before any request is sent, and the session stays as it was. *)
Theorem X11_create_project_needs_team (name : string)
    (report_template_properties_id : option Z) (author_ids : option (list Z))
    (template : option string) (w : world) (a : DradisAPI) (cfg : DradisConfig) :
  api (server_state w) = Some a ->
  config (server_state w) = Some cfg ->
  optint_truthy (dradis_default_team_id cfg) = false ->
  Server.create_project transport pydantic json_dumps name None
    report_template_properties_id author_ids template w
  = (Raise (ValueError "team_id is required and DRADIS_DEFAULT_TEAM_ID is not set"), w).
Proof.
  intros Ha Hc Hteam. unfold Server.create_project.
  unfold bind at 1. rewrite get_api_run, Ha.
  unfold bind at 1. rewrite get_config_run, Hc.
  cbv zeta. now rewrite Hteam.
Qed.

(** X12. A [create_project] that raises, for whatever reason, leaves the
    session as it was: the active project changes only when the call
    returns. *)
Theorem X12_failed_create_project_keeps_session (name : string)
    (team_id report_template_properties_id : option Z) (author_ids : option (list Z))
    (template : option string) (w w' : world) (e : exn) :
  Server.create_project transport pydantic json_dumps name team_id
    report_template_properties_id author_ids template w = (Raise e, w') ->
  server_state w' = server_state w.
Proof.
  unfold Server.create_project.
  unfold bind at 1. rewrite get_api_run.
  destruct (api (server_state w)) as [a|]; [|intros H; now inversion H].
  unfold bind at 1. rewrite get_config_run.
  destruct (config (server_state w)) as [cfg|]; [|intros H; now inversion H].
  cbv zeta.
  match goal with
  | |- (match ?t with Some _ => _ | None => _ end) _ = _ -> _ => destruct t as [team|]
  end; [|intros H; now inversion H].
  unfold bind at 1. unfold Api.create_project, bind at 1. rewrite request_run.
  match goal with
  | |- context [transport ?h ?r] => destruct (transport h r) as [|code [j|]]
  end; try (intros H; now inversion H);
    destruct (is_success code); try (intros H; now inversion H).
  unfold lift.
  destruct (construct (validate_ProjectDetails pydantic) j) as [project|e'];
    [discriminate | intros H; now inversion H].
Qed.

(** X13. A page number of 0 counts as no page: both listing tools then
    ask for the same address as without a page and report page 1, so the
    two calls run alike. *)
Theorem X13_page_zero_is_no_page (w : world) :
  Server.get_vulnerabilities transport pydantic json_dumps (Some 0%Z) w
  = Server.get_vulnerabilities transport pydantic json_dumps None w
  /\ Server.get_all_vulnerability_details transport pydantic json_dumps (Some 0%Z) w
     = Server.get_all_vulnerability_details transport pydantic json_dumps None w
  /\ Api.issues_endpoint None = "/pro/api/issues"
  /\ forall p, p <> 0%Z ->
       Api.issues_endpoint (Some p) = "/pro/api/issues?page=" ++ str_of_int p.
Proof.
  split; [reflexivity|]. split; [reflexivity|]. split; [reflexivity|].
  intros p Hp. unfold Api.issues_endpoint. cbn [optint_truthy].
  destruct (Z.eqb_spec p 0); [contradiction|]. reflexivity.
Qed.

(** X14. [test_connection] never raises and never touches the session.
    Without a client it sends nothing and answers false; with a client it
    sends the one read of project 1 and answers true exactly when that
    read comes back with a status from 200 to 299 and a body that is a
    valid project. *)
Theorem X14_test_connection (w : world) :
  exists (b : bool) (w' : world),
    Server.test_connection transport pydantic w = (Ok b, w')
    /\ server_state w' = server_state w
    /\ (api (server_state w) = None -> b = false /\ w' = w)
    /\ (forall a, api (server_state w) = Some a ->
        let req := request_of a GET "/pro/api/projects/1" None None in
        wire w' = (wire w ++ [req])%list
        /\ (b = true
            <-> exists code body details,
                  transport (wire w) req = Response code (Some body)
                  /\ (200 <= code <= 299)%Z
                  /\ construct (validate_ProjectDetails pydantic) body = Ok details)).
Proof.
  unfold Server.test_connection. unfold bind at 1. rewrite get_api_run.
  destruct (api (server_state w)) as [a|].
  - rewrite api_get_project_details_eq, request_run. cbn [fst].
    change ("/pro/api/projects/" ++ str_of_int 1) with "/pro/api/projects/1".
    set (req := request_of a GET "/pro/api/projects/1" None None).
    destruct (transport (wire w) req) as [|code [j|]] eqn:Hreply.
    + exists false. eexists. split; [reflexivity|]. split; [reflexivity|].
      split; [discriminate|]. intros a' Ha'. inversion Ha'; subst a'. fold req.
      split; [reflexivity|]. split; [discriminate|].
      intros (c & b & d & Hr & _). rewrite Hreply in Hr. discriminate.
    + destruct (is_success code) eqn:Hc.
      * destruct (construct (validate_ProjectDetails pydantic) j) as [d|e] eqn:Hv.
        -- exists true. eexists. split; [reflexivity|]. split; [reflexivity|].
           split; [discriminate|]. intros a' Ha'. inversion Ha'; subst a'. fold req.
           split; [reflexivity|]. split; [|reflexivity].
           intros _. exists code, j, d. rewrite Hreply.
           repeat split; [now apply is_success_range | now apply is_success_range | exact Hv].
        -- exists false. eexists. split; [reflexivity|]. split; [reflexivity|].
           split; [discriminate|]. intros a' Ha'. inversion Ha'; subst a'. fold req.
           split; [reflexivity|]. split; [discriminate|].
           intros (c & b & d & Hr & _ & Hd). rewrite Hreply in Hr. inversion Hr; subst.
           rewrite Hv in Hd. discriminate.
      * exists false. eexists. split; [reflexivity|]. split; [reflexivity|].
        split; [discriminate|]. intros a' Ha'. inversion Ha'; subst a'. fold req.
        split; [reflexivity|]. split; [discriminate|].
        intros (c & b & d & Hr & Hrange & _). rewrite Hreply in Hr. inversion Hr; subst.
        apply is_success_range in Hrange. rewrite Hrange in Hc. discriminate.
    + exists false. eexists.
      split; [destruct (is_success code); reflexivity|]. split; [reflexivity|].
      split; [discriminate|]. intros a' Ha'. inversion Ha'; subst a'. fold req.
      split; [reflexivity|]. split; [discriminate|].
      intros (c & b & d & Hr & _). rewrite Hreply in Hr. discriminate.
  - exists false, w. split; [reflexivity|]. split; [reflexivity|].
    split; [now split | discriminate].
Qed.

(** X15. The [update_content_block] tool refuses an empty content map:
    with a project and a client in place it raises the validation error
    before any request, so the block is neither read nor written. *)
Theorem X15_empty_content_rejected (block_id : Z) (block_group : string)
    (w : world) (pid : Z) (a : DradisAPI) :
  project_id (server_state w) = Some pid -> pid <> 0%Z ->
  api (server_state w) = Some a ->
  Server.update_content_block transport pydantic json_dumps block_id block_group [] w
  = (Raise ValidationError, w).
Proof.
  intros Hp Hnz Ha. unfold Server.update_content_block.
  rewrite (bind_ok _ _ _ _ _ (require_project_set w pid Hp Hnz)). cbv beta.
  unfold bind at 1. rewrite get_api_run, Ha. reflexivity.
Qed.

End MoreClaims.

Module FoldFacts.

Section Guarded.

Variable test : pyval -> bool.

(** The record after a loop of guarded assignments, at one key. *)
Lemma guarded_get (U : dict) :
  wf_dict U ->
  forall (S : dict) (k : string),
  dict_get k (fold_left (fun d kv => if test (snd kv)
                                     then dict_set (fst kv) (snd kv) d else d) U S)
  = match dict_get k U with
    | Some v => if test v then Some v else dict_get k S
    | None => dict_get k S
    end.
Proof.
  unfold wf_dict. induction U as [|[k0 v0] U IH]; intros Hwf S k; [reflexivity|].
  inversion Hwf as [|? ? Hnot Hwf']; subst.
  cbn [fold_left fst snd dict_get]. rewrite (IH Hwf').
  destruct (String.eqb_spec k k0) as [->|Hne].
  - rewrite (dict_get_absent _ _ Hnot).
    destruct (test v0); [apply dict_get_set_eq | reflexivity].
  - assert (Hsame : dict_get k (if test v0 then dict_set k0 v0 S else S) = dict_get k S).
    { destruct (test v0); [now apply dict_get_set_neq | reflexivity]. }
    now rewrite Hsame.
Qed.

End Guarded.

(** A mapping whose first two keys are known starts with their entries. *)
Lemma two_first_keys (d : dict) (k1 k2 : string) (ks : list string) :
  keys d = k1 :: k2 :: ks ->
  exists v1 v2 rest, d = (k1, v1) :: (k2, v2) :: rest.
Proof.
  destruct d as [|[a v1] [|[b v2] rest]]; cbn; intros H; inversion H; subst.
  now exists v1, v2, rest.
Qed.

End FoldFacts.

Import FoldFacts.

Section ClientClaims.

Context (transport : list request -> request -> http_reply).
Context (pydantic : Pydantic).

(** [get_vulnerability] on a reply that has the three keys it reads. *)
Lemma get_vulnerability_run (self : DradisAPI) (pid vid : Z) (w : world)
    (code : Z) (r : dict) (i au : pyval) (f : dict) :
  transport (wire w)
    (request_of self GET ("/pro/api/issues/" ++ str_of_int vid) (Some pid) None)
  = Response code (Some (PDict r)) ->
  is_success code = true ->
  dict_get "id" r = Some i -> dict_get "author" r = Some au ->
  dict_get "fields" r = Some (PDict f) ->
  Api.get_vulnerability transport self pid vid w
  = (Ok (fold_left (fun construction kv => dict_set (fst kv) (snd kv) construction)
                   f [("id", i); ("author", au)]),
     {| server_state := server_state w;
        wire := (wire w ++ [request_of self GET ("/pro/api/issues/" ++ str_of_int vid)
                              (Some pid) None])%list |}).
Proof.
  intros Hreply Hcode Hi Hau Hf. unfold Api.get_vulnerability.
  rewrite (bind_ok _ _ _ _ _ (request_ok transport _ _ _ _ _ _ _ _ Hreply Hcode)).
  unfold bind, lift, py_getitem, py_items, ret. now rewrite Hi, Hau, Hf.
Qed.

(** X16. None of the three read-modify-write operations writes without
    having read: when the read that opens [update_vulnerability],
    [update_content_block] or [upsert_document_property] fails, the
    operation raises and that read is the only request it has sent. *)
Theorem X16_no_write_after_failed_read (self : DradisAPI) (pid : Z) (w : world) :
  (forall issue_id vulnerability,
     let req := request_of self GET ("/pro/api/issues/" ++ str_of_int issue_id)
                  (Some pid) None in
     read_fails (transport (wire w) req) = true ->
     exists e,
       Api.update_vulnerability transport pydantic self pid issue_id vulnerability w
       = (Raise e, {| server_state := server_state w; wire := (wire w ++ [req])%list |}))
  /\ (forall block_id content_block,
        let req := request_of self GET ("/pro/api/content_blocks/" ++ str_of_int block_id)
                     (Some pid) None in
        read_fails (transport (wire w) req) = true ->
        exists e,
          Api.update_content_block transport pydantic self pid block_id content_block w
          = (Raise e, {| server_state := server_state w; wire := (wire w ++ [req])%list |}))
  /\ (forall property_name value,
        let req := request_of self GET "/pro/api/document_properties" (Some pid) None in
        read_fails (transport (wire w) req) = true ->
        exists e,
          Api.upsert_document_property transport self pid property_name value w
          = (Raise e, {| server_state := server_state w; wire := (wire w ++ [req])%list |})).
Proof.
  split; [|split].
  - intros issue_id vulnerability req Hfail.
    unfold req in *. destruct (request_raises transport _ _ _ _ _ _ Hfail) as [e He].
    exists e. unfold Api.update_vulnerability, Api.get_vulnerability.
    apply bind_raise. apply bind_raise. exact He.
  - intros block_id content_block req Hfail.
    unfold req in *. destruct (request_raises transport _ _ _ _ _ _ Hfail) as [e He].
    exists e. unfold Api.update_content_block, Api.get_content_block.
    apply bind_raise. apply bind_raise. exact He.
  - intros property_name value req Hfail.
    unfold req in *. destruct (request_raises transport _ _ _ _ _ _ Hfail) as [e He].
    exists e. unfold Api.upsert_document_property, Api.get_document_properties.
    apply bind_raise. exact He.
Qed.

(** X17. [get_vulnerability] returns the issue's id and author under the
    keys ["id"] and ["author"], first and second, followed by the issue's
    fields; a field that is itself named ["id"] or ["author"] takes the
    place of the issue's own value. *)
Theorem X17_get_vulnerability_shape (self : DradisAPI) (pid vid : Z) (w : world)
    (code : Z) (r : dict) (i au : pyval) (f : dict) :
  transport (wire w)
    (request_of self GET ("/pro/api/issues/" ++ str_of_int vid) (Some pid) None)
  = Response code (Some (PDict r)) ->
  (200 <= code <= 299)%Z ->
  dict_get "id" r = Some i -> dict_get "author" r = Some au ->
  dict_get "fields" r = Some (PDict f) ->
  wf_dict f ->
  exists result w',
    Api.get_vulnerability transport self pid vid w = (Ok result, w')
    /\ wf_dict result
    /\ (exists added,
          keys result = ("id" :: "author" :: added)%list
          /\ forall x, In x added -> In x (keys f) /\ x <> "id" /\ x <> "author")
    /\ forall k,
         dict_get k result
         = match dict_get k f with
           | Some v => Some v
           | None => dict_get k [("id", i); ("author", au)]
           end.
Proof.
  intros Hreply Hcode Hi Hau Hf Hwf. apply is_success_range in Hcode.
  eexists. eexists.
  split; [exact (get_vulnerability_run self pid vid w code r i au f Hreply Hcode Hi Hau Hf)|].
  split; [|split].
  - apply (guarded_wf (fun _ => true) f [("id", i); ("author", au)]).
    repeat constructor; simpl; intuition discriminate.
  - destruct (guarded_keys (fun _ => true) f [("id", i); ("author", au)])
      as (added & Hkeys & Hadded).
    exists added. split; [exact Hkeys|].
    intros x Hx. destruct (Hadded x Hx) as [Hin Hnot]. split; [exact Hin|].
    split; intros ->; apply Hnot; cbn; tauto.
  - intros k. rewrite (guarded_get (fun _ => true) f Hwf).
    now destruct (dict_get k f).
Qed.

(** X18. [update_vulnerability] writes the issue's id and author back as
    fields: the text it sends always opens with the field block of ["id"]
    and then that of ["author"], and when neither the issue's fields nor
    the update name these keys, the two blocks hold the issue's own id and
    author. *)
Theorem X18_update_sends_id_and_author (self : DradisAPI) (pid issue_id : Z)
    (U : dict) (w : world) (code : Z) (r : dict) (i au : pyval) (f : dict) :
  transport (wire w)
    (request_of self GET ("/pro/api/issues/" ++ str_of_int issue_id) (Some pid) None)
  = Response code (Some (PDict r)) ->
  (200 <= code <= 299)%Z ->
  dict_get "id" r = Some i -> dict_get "author" r = Some au ->
  dict_get "fields" r = Some (PDict f) ->
  wf_dict f -> wf_dict U ->
  exists v1 v2 rest,
    wire (snd (Api.update_vulnerability transport pydantic self pid issue_id U w))
    = (wire w
       ++ [request_of self GET ("/pro/api/issues/" ++ str_of_int issue_id) (Some pid) None;
           request_of self PUT ("/pro/api/issues/" ++ str_of_int issue_id) (Some pid)
             (Some (PDict [("issue",
                            PDict [("text",
                                    PStr (field_block "id" v1
                                          ++ field_block "author" v2
                                          ++ blocks rest))])]))])%list
    /\ (dict_get "id" f = None -> dict_get "id" U = None -> v1 = i)
    /\ (dict_get "author" f = None -> dict_get "author" U = None -> v2 = au).
Proof.
  intros Hreply Hcode Hi Hau Hf Hwf HwfU. apply is_success_range in Hcode.
  pose proof (get_vulnerability_run self pid issue_id w code r i au f
                Hreply Hcode Hi Hau Hf) as Hget.
  set (snapshot := fold_left (fun construction kv => dict_set (fst kv) (snd kv) construction)
                             f [("id", i); ("author", au)]) in *.
  destruct (guarded_keys (fun _ => true) f [("id", i); ("author", au)])
    as (added & Hkeys & _).
  change (keys snapshot = (keys [("id", i); ("author", au)] ++ added)%list) in Hkeys.
  destruct (guarded_keys update_test U snapshot) as (added2 & Hkeys2 & _).
  change (keys (merge_vulnerability snapshot U) = (keys snapshot ++ added2)%list) in Hkeys2.
  rewrite Hkeys in Hkeys2. cbn [keys map fst app] in Hkeys2.
  destruct (two_first_keys _ _ _ _ Hkeys2) as (v1 & v2 & rest & Hshape).
  exists v1, v2, rest. split; [|split].
  - unfold Api.update_vulnerability.
    rewrite (bind_ok _ _ _ _ _ Hget). cbv zeta.
    rewrite bind_pure_world by reflexivity.
    rewrite request_world. cbn [wire server_state].
    rewrite Hshape, construct_blocks. cbn [blocks fst snd].
    now rewrite <- app_assoc.
  - intros Hnf HnU.
    assert (Hlook : dict_get "id" (merge_vulnerability snapshot U) = Some v1)
      by (now rewrite Hshape).
    rewrite (merge_vulnerability_get U HwfU), HnU in Hlook. cbn [merged_entry] in Hlook.
    unfold snapshot in Hlook. rewrite (guarded_get (fun _ => true) f Hwf), Hnf in Hlook.
    cbn in Hlook. now inversion Hlook.
  - intros Hnf HnU.
    assert (Hlook : dict_get "author" (merge_vulnerability snapshot U) = Some v2)
      by (now rewrite Hshape).
    rewrite (merge_vulnerability_get U HwfU), HnU in Hlook. cbn [merged_entry] in Hlook.
    unfold snapshot in Hlook. rewrite (guarded_get (fun _ => true) f Hwf), Hnf in Hlook.
    cbn in Hlook. now inversion Hlook.
Qed.

(** The scan for a property over the keys of a mapping: a key that holds
    the name as a part is then subscripted with the name, which a text
    does not allow. *)
Lemma property_exists_keys (n : string) (ks : list string) :
  Api.property_exists n (map PStr ks)
  = if existsb (is_substring n) ks then Raise TypeError else Ok false.
Proof.
  induction ks as [|k ks IH]; [reflexivity|].
  cbn [map Api.property_exists py_in py_getitem existsb].
  destruct (is_substring n k); [reflexivity | exact IH].
Qed.

(** X19. When the upstream answers the property list with one mapping
    instead of a list of mappings, [upsert_document_property] walks its
    keys: if the name is part of some key it raises a [TypeError] with
    only the read sent, and otherwise it takes the create path, whatever
    the mapping holds. *)
Theorem X19_upsert_on_mapping_reply (self : DradisAPI) (pid : Z) (n v : string)
    (w : world) (code : Z) (d : dict) :
  transport (wire w) (request_of self GET "/pro/api/document_properties" (Some pid) None)
  = Response code (Some (PDict d)) ->
  (200 <= code <= 299)%Z ->
  let w1 := {| server_state := server_state w;
               wire := (wire w ++ [request_of self GET "/pro/api/document_properties"
                                     (Some pid) None])%list |} in
  (existsb (is_substring n) (keys d) = true ->
   Api.upsert_document_property transport self pid n v w = (Raise TypeError, w1))
  /\ (existsb (is_substring n) (keys d) = false ->
      Api.upsert_document_property transport self pid n v w
      = Api._request transport self POST "/pro/api/document_properties" (Some pid)
          (Some (PDict [("document_properties", PDict [(n, PStr v)])])) w1).
Proof.
  intros Hreply Hcode w1. apply is_success_range in Hcode.
  assert (Hrun : Api.upsert_document_property transport self pid n v w
                 = if existsb (is_substring n) (keys d)
                   then (Raise TypeError, w1)
                   else Api._request transport self POST "/pro/api/document_properties"
                          (Some pid)
                          (Some (PDict [("document_properties", PDict [(n, PStr v)])])) w1).
  { unfold Api.upsert_document_property, Api.get_document_properties.
    rewrite (bind_ok _ _ _ _ _ (request_ok transport _ _ _ _ _ _ _ _ Hreply Hcode)).
    fold w1. unfold bind at 1. cbn [py_iter lift].
    rewrite property_exists_keys. unfold bind at 1. cbn [lift].
    now destruct (existsb _ (keys d)). }
  split; intros H; now rewrite Hrun, H.
Qed.

(** The projection [get_content_blocks] applies to the blocks of a reply,
    one after the other. *)
Lemma content_blocks_mapM (ds : list dict) (w : world) :
  mapM (fun block =>
          id <- lift (py_getitem block "id") ;;
          fields <- lift (py_getitem block "fields") ;;
          ret (PDict [("id", id); ("fields", fields)]))
       (map PDict ds) w
  = (match find (fun d => negb (dict_mem "id" d && dict_mem "fields" d)) ds with
     | Some d => Raise (KeyError (if dict_mem "id" d then "fields" else "id"))
     | None =>
         Ok (map (fun d => PDict [("id", match dict_get "id" d with
                                         | Some x => x | None => PNone end);
                                  ("fields", match dict_get "fields" d with
                                             | Some x => x | None => PNone end)]) ds)
     end, w).
Proof.
  induction ds as [|d ds IH]; [reflexivity|].
  cbn [map mapM find].
  unfold bind at 1. unfold bind at 1. unfold lift at 1. cbn [py_getitem].
  destruct (dict_get "id" d) as [i|] eqn:Hi.
  - assert (Hmi : dict_mem "id" d = true) by (unfold dict_mem; now rewrite Hi).
    unfold bind at 1. unfold lift at 1. cbn [py_getitem].
    destruct (dict_get "fields" d) as [f|] eqn:Hf.
    + assert (Hmf : dict_mem "fields" d = true) by (unfold dict_mem; now rewrite Hf).
      unfold ret at 1. unfold bind at 1. rewrite IH, Hmi, Hmf. cbn [andb negb].
      destruct (find _ ds); reflexivity.
    + assert (Hmf : dict_mem "fields" d = false) by (unfold dict_mem; now rewrite Hf).
      rewrite Hmi, Hmf. cbn [andb negb]. now rewrite Hmi.
  - assert (Hmi : dict_mem "id" d = false) by (unfold dict_mem; now rewrite Hi).
    rewrite Hmi. cbn [andb negb]. now rewrite Hmi.
Qed.

(** X20. On a reply that lists mappings, [get_content_blocks] returns,
    for each block and in order, a mapping of just its ["id"] and its
    ["fields"]; if a block lacks one of the two keys, the call raises the
    [KeyError] of the first block that does, naming ["id"] before
    ["fields"]. *)
Theorem X20_get_content_blocks_projects (self : DradisAPI) (pid : Z) (w : world)
    (code : Z) (ds : list dict) :
  transport (wire w) (request_of self GET "/pro/api/content_blocks" (Some pid) None)
  = Response code (Some (PList (map PDict ds))) ->
  (200 <= code <= 299)%Z ->
  fst (Api.get_content_blocks transport self pid w)
  = match find (fun d => negb (dict_mem "id" d && dict_mem "fields" d)) ds with
    | Some d => Raise (KeyError (if dict_mem "id" d then "fields" else "id"))
    | None =>
        Ok (map (fun d => PDict [("id", match dict_get "id" d with
                                        | Some x => x | None => PNone end);
                                 ("fields", match dict_get "fields" d with
                                            | Some x => x | None => PNone end)]) ds)
    end.
Proof.
  intros Hreply Hcode. apply is_success_range in Hcode.
  unfold Api.get_content_blocks.
  rewrite (bind_ok _ _ _ _ _ (request_ok transport _ _ _ _ _ _ _ _ Hreply Hcode)).
  unfold bind at 1. cbn [py_iter lift]. now rewrite content_blocks_mapM.
Qed.

End ClientClaims.

(* ===================================================================== *)
(** * Further properties: settings and schemas *)
(* ===================================================================== *)

Module StripFacts.

Lemma lstrip_fixed (c : ascii) (s : string) :
  is_space c = false -> lstrip (String c s) = String c s.
Proof. intros H. cbn [lstrip]. now rewrite H. Qed.

Lemma lstrip_head (s : string) :
  lstrip s = EmptyString \/ exists c r, lstrip s = String c r /\ is_space c = false.
Proof.
  induction s as [|c s IH]; [now left|]. cbn [lstrip].
  destruct (is_space c) eqn:Hc; [exact IH|]. right. now exists c, s.
Qed.

Lemma rstrip_head (c : ascii) (s : string) :
  is_space c = false -> exists r, rstrip (String c s) = String c r.
Proof.
  intros Hc. cbn [rstrip]. destruct (rstrip s) as [|x r].
  - rewrite Hc. now exists EmptyString.
  - now exists (String x r).
Qed.

Lemma rstrip_idem (s : string) : rstrip (rstrip s) = rstrip s.
Proof.
  induction s as [|c s IH]; [reflexivity|]. cbn [rstrip].
  destruct (rstrip s) as [|x r] eqn:Hr.
  - destruct (is_space c) eqn:Hc; [reflexivity|]. cbn [rstrip]. now rewrite Hc.
  - change (rstrip (String c (String x r))) with
      (match rstrip (String x r) with
       | EmptyString => if is_space c then EmptyString else String c EmptyString
       | r' => String c r'
       end).
    now rewrite IH.
Qed.

Lemma strip_idem (s : string) : strip (strip s) = strip s.
Proof.
  unfold strip. destruct (lstrip_head s) as [->|(c & r & -> & Hc)]; [reflexivity|].
  destruct (rstrip_head c r Hc) as [r' Hr']. rewrite Hr'.
  rewrite (lstrip_fixed c r' Hc), <- Hr'. apply rstrip_idem.
Qed.

Lemma mem_char_lstrip (c : ascii) (s : string) :
  mem_char c s = false -> mem_char c (lstrip s) = false.
Proof.
  induction s as [|x s IH]; [reflexivity|]. cbn [lstrip mem_char].
  intros H. apply orb_false_iff in H. destruct H as [Hx Hs].
  destruct (is_space x); [now apply IH|]. cbn [mem_char]. now rewrite Hx, Hs.
Qed.

Lemma mem_char_rstrip (c : ascii) (s : string) :
  mem_char c s = false -> mem_char c (rstrip s) = false.
Proof.
  induction s as [|x s IH]; [reflexivity|]. cbn [rstrip mem_char].
  intros H. apply orb_false_iff in H. destruct H as [Hx Hs].
  specialize (IH Hs). destruct (rstrip s) as [|y r].
  - destruct (is_space x); [reflexivity|]. cbn [mem_char]. now rewrite Hx.
  - cbn [mem_char] in *. now rewrite Hx, IH.
Qed.

Lemma mem_char_strip (c : ascii) (s : string) :
  mem_char c s = false -> mem_char c (strip s) = false.
Proof. intros H. unfold strip. now apply mem_char_rstrip, mem_char_lstrip. Qed.

Lemma mem_char_app (c : ascii) (a b : string) :
  mem_char c (a ++ b) = mem_char c a || mem_char c b.
Proof.
  induction a as [|x a IH]; [reflexivity|]. cbn [append mem_char].
  now rewrite IH, orb_assoc.
Qed.

(** The pieces of a split hold no comma. *)
Lemma split_comma_pieces (s : string) :
  split_comma s <> [] /\ Forall (fun p => mem_char COMMA p = false) (split_comma s).
Proof.
  induction s as [|c s [Hne IH]]; cbn [split_comma].
  - split; [discriminate | now repeat constructor].
  - destruct (Ascii.eqb c COMMA) eqn:Hc.
    + split; [discriminate|]. constructor; [reflexivity | exact IH].
    + destruct (split_comma s) as [|p ps]; [contradiction|].
      split; [discriminate|]. inversion IH; subst.
      constructor; [|assumption]. cbn [mem_char]. now rewrite Hc.
Qed.

Lemma split_comma_whole (a : string) :
  mem_char COMMA a = false -> split_comma a = [a].
Proof.
  induction a as [|c a IH]; [reflexivity|]. cbn [mem_char split_comma]. intros H.
  apply orb_false_iff in H. destruct H as [Hc Ha]. now rewrite Hc, (IH Ha).
Qed.

Lemma split_comma_app (a b : string) :
  mem_char COMMA a = false ->
  split_comma (a ++ String COMMA b) = a :: split_comma b.
Proof.
  induction a as [|c a IH]; cbn [append mem_char split_comma]; intros H.
  - now rewrite Ascii.eqb_refl.
  - apply orb_false_iff in H. destruct H as [Hc Ha]. now rewrite Hc, (IH Ha).
Qed.

End StripFacts.

Import StripFacts.

(** X21. Whatever text [parse_vulnerability_parameters] is given, every
    name it returns is not empty, has no blank around it and has no comma
    in it; the empty and blank pieces between commas are left out. *)
Theorem X21_parsed_parameters_are_clean (v : string) :
  Forall clean_name (parse_vulnerability_parameters (RawStr v)).
Proof.
  cbn [parse_vulnerability_parameters].
  destruct (split_comma_pieces v) as [_ Hpieces].
  induction Hpieces as [|p ps Hp _ IH]; cbn [filter map]; [constructor|].
  destruct (str_truthy (strip p)) eqn:Ht; [|exact IH].
  cbn [map]. constructor; [|exact IH]. split; [|split].
  - intros Heq. rewrite Heq in Ht. discriminate.
  - apply strip_idem.
  - now apply mem_char_strip.
Qed.

(** X22. Writing clean names down with a comma and a blank between them
    and handing the text to [parse_vulnerability_parameters] gives the
    names again, in order. *)
Theorem X22_parameters_round_trip (names : list string) :
  Forall clean_name names ->
  parse_vulnerability_parameters (RawStr (String.concat ", " names)) = names.
Proof.
  intros Hclean. cbn [parse_vulnerability_parameters].
  assert (Hgen : forall l, Forall clean_name l -> l <> [] ->
            forall lead : bool,
              let pre := if lead then " " else EmptyString in
              map strip (filter (fun param => str_truthy (strip param))
                                (split_comma (pre ++ String.concat ", " l))) = l).
  { induction l as [|n l IH]; intros Hl Hne lead pre; [contradiction|].
    inversion Hl as [|? ? (Hn & Hs & Hc) Hl']; subst.
    assert (Hpre : mem_char COMMA (pre ++ n) = false).
    { rewrite mem_char_app, Hc. unfold pre. now destruct lead. }
    assert (Hstrip : strip (pre ++ n) = n).
    { unfold pre. destruct lead; [|exact Hs].
      change (strip (" " ++ n)) with (strip n). exact Hs. }
    assert (Htruthy : str_truthy (strip (pre ++ n)) = true).
    { rewrite Hstrip. destruct n; [contradiction | reflexivity]. }
    destruct l as [|n' l'].
    - cbn [String.concat]. rewrite (split_comma_whole _ Hpre).
      cbn [filter map]. rewrite Htruthy. cbn [map]. now rewrite Hstrip.
    - change (String.concat ", " (n :: n' :: l'))
        with (n ++ ", " ++ String.concat ", " (n' :: l')).
      rewrite <- StringFacts.append_assoc.
      change (", " ++ String.concat ", " (n' :: l'))
        with (String COMMA (" " ++ String.concat ", " (n' :: l'))).
      rewrite (split_comma_app _ _ Hpre). cbn [filter]. rewrite Htruthy.
      cbn [map]. rewrite Hstrip. f_equal.
      apply (IH Hl' ltac:(discriminate) true). }
  destruct names as [|n l]; [reflexivity|].
  apply (Hgen (n :: l) Hclean ltac:(discriminate) false).
Qed.

Lemma X22_parameters_round_trip_witness :
  parse_vulnerability_parameters (RawStr "Title, Rating, CVE") = ["Title"; "Rating"; "CVE"].
Proof.
  apply (X22_parameters_round_trip ["Title"; "Rating"; "CVE"]).
  repeat constructor; discriminate.
Defined.

Module SlashFacts.

Lemma rstrip_char_idem (c : ascii) (s : string) :
  rstrip_char c (rstrip_char c s) = rstrip_char c s.
Proof.
  induction s as [|x s IH]; [reflexivity|]. cbn [rstrip_char].
  destruct (rstrip_char c s) as [|y r] eqn:Hr.
  - destruct (Ascii.eqb x c) eqn:Hx; [reflexivity|]. cbn [rstrip_char]. now rewrite Hx.
  - change (rstrip_char c (String x (String y r))) with
      (match rstrip_char c (String y r) with
       | EmptyString => if Ascii.eqb x c then EmptyString else String x EmptyString
       | r' => String x r'
       end).
    now rewrite IH.
Qed.

Lemma rstrip_char_no_trailing (c : ascii) (s r : string) :
  rstrip_char c s <> r ++ String c EmptyString.
Proof.
  revert r. induction s as [|x s IH]; intros r; cbn [rstrip_char].
  - destruct r; discriminate.
  - destruct (rstrip_char c s) as [|y t].
    + destruct (Ascii.eqb_spec x c) as [->|Hx].
      * destruct r; discriminate.
      * destruct r as [|z [|z' r']]; cbn; try discriminate.
        intros H. inversion H. contradiction.
    + destruct r as [|z r']; cbn; [discriminate|].
      intros H. inversion H; subst. now apply (IH r').
Qed.

Lemma rstrip_char_only_trailing (c : ascii) (s : string) :
  exists n, s = rstrip_char c s ++ string_of_list_ascii (repeat c n).
Proof.
  induction s as [|x s (n & IH)]; [now exists 0|]. cbn [rstrip_char].
  destruct (rstrip_char c s) as [|y t].
  - cbn [append] in IH. destruct (Ascii.eqb_spec x c) as [->|Hx].
    + exists (S n). cbn. now rewrite <- IH.
    + exists n. cbn. now rewrite <- IH.
  - exists n. cbn [append] in *. now rewrite <- IH.
Qed.

End SlashFacts.

(** X23. The validator of the URL takes away trailing slashes and nothing
    else: the URL is the result followed by slashes only, the result does
    not end in a slash, and validating the result again changes
    nothing. *)
Theorem X23_trailing_slashes_removed (v : string) :
  (exists n, v = ensure_trailing_slash_removed v ++ slashes n)
  /\ (forall r, ensure_trailing_slash_removed v <> r ++ "/")
  /\ ensure_trailing_slash_removed (ensure_trailing_slash_removed v)
     = ensure_trailing_slash_removed v.
Proof.
  unfold ensure_trailing_slash_removed, slashes. split; [|split].
  - apply SlashFacts.rstrip_char_only_trailing.
  - apply SlashFacts.rstrip_char_no_trailing.
  - apply SlashFacts.rstrip_char_idem.
Qed.

(** X24. [load_config] returns settings exactly when the settings load.
    When they fail to load and a required variable is unset or empty, it
    raises one [ValueError] whose message names every such variable at
    once, the URL before the token; when both are set it passes the
    original exception on. *)
Theorem X24_load_config_reports (settings : outcome DradisConfig)
    (getenv : string -> option string) :
  (forall c, load_config settings getenv = Ok c <-> settings = Ok c)
  /\ (forall e,
        settings = Raise e ->
        (missing_vars getenv = [] -> load_config settings getenv = Raise e)
        /\ (missing_vars getenv <> [] ->
            exists rest,
              load_config settings getenv
              = Raise (ValueError ("Missing required environment variables: "
                                   ++ String.concat ", " (missing_vars getenv) ++ rest))))
  /\ missing_vars getenv
     = filter (fun name => env_unset (getenv name)) ["DRADIS_URL"; "DRADIS_API_TOKEN"].
Proof.
  split; [|split].
  - intros c. unfold load_config. destruct settings as [c'|e]; [tauto|].
    destruct (missing_vars getenv); split; discriminate.
  - intros e ->. unfold load_config. split.
    + now intros ->.
    + intros Hne. destruct (missing_vars getenv) as [|m ms] eqn:Hm; [contradiction|].
      eexists. unfold error_msg. reflexivity.
  - unfold missing_vars. cbn [filter].
    destruct (env_unset (getenv "DRADIS_URL")), (env_unset (getenv "DRADIS_API_TOKEN"));
      reflexivity.
Qed.

Module SchemaFacts.







End SchemaFacts.


(* ===================================================================== *)
(** * The further properties on the sample deployment *)
(* ===================================================================== *)

Lemma X6_request_outcome_witness :
  fst (Api._request Sample.sample_upstream Sample.sample_api GET
         "/pro/api/content_blocks/7" (Some 1%Z) None Sample.fresh)
  = Ok Sample.block_json
  /\ fst (Api._request Sample.sample_upstream Sample.sample_api GET
            "/pro/api/projects/42" None None Sample.fresh)
     = Raise (HTTPStatusError 404 "https://dradis.example/pro/api/projects/42")
  /\ fst (Api._request Outage.offline Sample.sample_api GET
            "/pro/api/projects/42" None None Sample.fresh)
     = Raise (NetworkError "https://dradis.example/pro/api/projects/42")
  /\ fst (Api._request Outage.garbled Sample.sample_api GET
            "/pro/api/projects/42" None None Sample.fresh)
     = Raise (NetworkError "https://dradis.example/pro/api/projects/42").
Proof.
  split; [|split; [|split]].
  - apply (proj1 (proj2 (X6_request_outcome Sample.sample_upstream Sample.sample_api GET
                           "/pro/api/content_blocks/7" (Some 1%Z) None Sample.fresh))).
    exists 200%Z. split; [reflexivity | lia].
  - apply (proj1 (proj2 (proj2 (X6_request_outcome Sample.sample_upstream
                                  Sample.sample_api GET "/pro/api/projects/42" None None
                                  Sample.fresh)))
             404%Z (Some (PDict [("message", PStr "Resource not found")]))).
    + reflexivity.
    + lia.
  - apply (proj2 (proj2 (proj2 (X6_request_outcome Outage.offline Sample.sample_api GET
                                  "/pro/api/projects/42" None None Sample.fresh)))).
    left. reflexivity.
  - apply (proj2 (proj2 (proj2 (X6_request_outcome Outage.garbled Sample.sample_api GET
                                  "/pro/api/projects/42" None None Sample.fresh)))).
    right. exists 200%Z. split; [reflexivity | lia].
Defined.

Lemma X7_scoped_tools_keep_session_witness :
  server_state
    (snd (Server.call_tool Sample.sample_upstream Sample.strict Sample.dumps
            (Server.Call_update_vulnerability 11%Z [("Title", PStr "New")])
            Outage.on_project_5))
  = server_state Outage.on_project_5.
Proof.
  apply (proj1 (X7_scoped_tools_keep_session Sample.sample_upstream Sample.strict
                  Sample.dumps (Server.Call_update_vulnerability 11%Z [("Title", PStr "New")])
                  Outage.on_project_5 eq_refl)).
Defined.

Lemma X8_no_client_witness :
  exists msg,
    Server.call_tool Sample.sample_upstream Sample.strict Sample.dumps
      (Server.Call_get_content_blocks) Outage.no_client
    = (Raise (ValueError msg), Outage.no_client).
Proof.
  apply (X8_no_client_no_request Sample.sample_upstream Sample.strict Sample.dumps).
  reflexivity.
Defined.

Lemma X9_scoped_requests_witness :
  exists l,
    wire (snd (Server.call_tool Sample.sample_upstream Sample.strict Sample.dumps
                 (Server.Call_upsert_document_property "owner" "bob") Outage.on_project_5))
    = (wire Outage.on_project_5 ++ l)%list
    /\ Forall (addresses 5%Z) l.
Proof.
  apply (X9_scoped_requests_name_project Sample.sample_upstream Sample.strict Sample.dumps);
    [reflexivity | reflexivity | discriminate].
Defined.

Lemma X10_set_project_success_witness :
  project_id
    (server_state
       (snd (Server.set_project Sample.sample_upstream Sample.strict Sample.dumps 1%Z
               Sample.second_created)))
  = Some 1%Z.
Proof.
  rewrite (X10_set_project_success Sample.sample_upstream Sample.strict Sample.dumps 1%Z
             Sample.second_created Sample.sample_api 200%Z (Sample.project_json 1)
             (Outage.project_record 1) eq_refl eq_refl ltac:(lia) eq_refl).
  reflexivity.
Defined.

Lemma X11_create_project_needs_team_witness :
  Server.create_project Sample.sample_upstream Sample.strict Sample.dumps
    "acme" None None None None Outage.no_default_team
  = (Raise (ValueError "team_id is required and DRADIS_DEFAULT_TEAM_ID is not set"),
     Outage.no_default_team).
Proof.
  eapply (X11_create_project_needs_team Sample.sample_upstream Sample.strict Sample.dumps);
    reflexivity.
Defined.

Lemma X12_failed_create_project_witness :
  server_state
    (snd (Server.create_project Outage.offline Sample.strict Sample.dumps
            "acme" (Some 3%Z) None None None Outage.on_project_5))
  = server_state Outage.on_project_5.
Proof.
  apply (X12_failed_create_project_keeps_session Outage.offline Sample.strict Sample.dumps
           "acme" (Some 3%Z) None None None Outage.on_project_5 _
           (NetworkError "https://dradis.example/pro/api/projects")).
  vm_compute. reflexivity.
Defined.

Lemma X13_page_zero_witness :
  Api.issues_endpoint (Some 2%Z) = "/pro/api/issues?page=2".
Proof.
  apply (proj2 (proj2 (proj2 (X13_page_zero_is_no_page Sample.sample_upstream Sample.strict
                                Sample.dumps Sample.fresh))) 2%Z).
  discriminate.
Defined.

Lemma X14_test_connection_witness :
  (exists w', Server.test_connection Sample.sample_upstream Sample.strict
                Sample.second_created = (Ok true, w'))
  /\ Server.test_connection Sample.sample_upstream Sample.strict Outage.no_client
     = (Ok false, Outage.no_client).
Proof.
  split.
  - destruct (X14_test_connection Sample.sample_upstream Sample.strict Sample.second_created)
      as (b & w' & Hrun & _ & _ & Hclient).
    destruct (Hclient Sample.sample_api eq_refl) as [_ Hiff].
    exists w'. rewrite Hrun. f_equal. f_equal. apply Hiff.
    exists 200%Z, (Sample.project_json 1), (Outage.project_record 1).
    split; [reflexivity|]. split; [lia | reflexivity].
  - destruct (X14_test_connection Sample.sample_upstream Sample.strict Outage.no_client)
      as (b & w' & Hrun & _ & Hnone & _).
    destruct (Hnone eq_refl) as [-> ->]. exact Hrun.
Defined.

Lemma X15_empty_content_witness :
  Server.update_content_block Sample.sample_upstream Sample.strict Sample.dumps
    7%Z "Conclusions" [] Outage.on_project_5
  = (Raise ValidationError, Outage.on_project_5).
Proof.
  apply (X15_empty_content_rejected Sample.sample_upstream Sample.strict Sample.dumps
           7%Z "Conclusions" Outage.on_project_5 5%Z Sample.sample_api);
    [reflexivity | discriminate | reflexivity].
Defined.

Lemma X16_no_write_after_failed_read_witness :
  (exists e,
     Api.update_vulnerability Outage.offline Sample.strict Sample.sample_api 5%Z 11%Z
       [("Title", PStr "New")] Sample.fresh
     = (Raise e,
        {| server_state := server_state Sample.fresh;
           wire := [request_of Sample.sample_api GET "/pro/api/issues/11" (Some 5%Z) None] |}))
  /\ (exists e,
        Api.update_content_block Sample.sample_upstream Sample.strict Sample.sample_api 5%Z 9%Z
          {| ucb_block_group := "Conclusions"; ucb_content := [("Type", PStr "x")] |}
          Sample.fresh
        = (Raise e,
           {| server_state := server_state Sample.fresh;
              wire := [request_of Sample.sample_api GET "/pro/api/content_blocks/9"
                         (Some 5%Z) None] |}))
  /\ (exists e,
        Api.upsert_document_property Outage.garbled Sample.sample_api 5%Z "owner" "bob"
          Sample.fresh
        = (Raise e,
           {| server_state := server_state Sample.fresh;
              wire := [request_of Sample.sample_api GET "/pro/api/document_properties"
                         (Some 5%Z) None] |})).
Proof.
  split; [|split].
  - apply (proj1 (X16_no_write_after_failed_read Outage.offline Sample.strict
                    Sample.sample_api 5%Z Sample.fresh) 11%Z [("Title", PStr "New")]).
    reflexivity.
  - apply (proj1 (proj2 (X16_no_write_after_failed_read Sample.sample_upstream Sample.strict
                           Sample.sample_api 5%Z Sample.fresh)) 9%Z).
    reflexivity.
  - apply (proj2 (proj2 (X16_no_write_after_failed_read Outage.garbled Sample.strict
                           Sample.sample_api 5%Z Sample.fresh)) "owner" "bob").
    reflexivity.
Defined.

Lemma X17_get_vulnerability_shape_witness :
  exists result w',
    Api.get_vulnerability Sample.sample_upstream Sample.sample_api 5%Z 11%Z Sample.fresh
    = (Ok result, w')
    /\ wf_dict result
    /\ dict_get "Severity" result = Some (PStr "High")
    /\ dict_get "id" result = Some (PInt 11).
Proof.
  destruct (X17_get_vulnerability_shape Sample.sample_upstream Sample.sample_api 5%Z 11%Z
              Sample.fresh 200%Z Outage.issue11 (PInt 11) (PStr "ann@example.com")
              [("Title", PStr "Old"); ("Severity", PStr "High")]
              eq_refl ltac:(lia) eq_refl eq_refl eq_refl)
    as (result & w' & Hrun & Hwf & _ & Hget).
  - repeat constructor; simpl; intuition discriminate.
  - exists result, w'. split; [exact Hrun|]. split; [exact Hwf|].
    split; [apply (Hget "Severity") | apply (Hget "id")].
Defined.

Lemma X18_update_sends_id_and_author_witness :
  exists rest,
    wire (snd (Api.update_vulnerability Sample.sample_upstream Sample.strict
                 Sample.sample_api 5%Z 11%Z [("Title", PStr "New")] Sample.fresh))
    = [request_of Sample.sample_api GET "/pro/api/issues/11" (Some 5%Z) None;
       request_of Sample.sample_api PUT "/pro/api/issues/11" (Some 5%Z)
         (Some (PDict [("issue",
                        PDict [("text",
                                PStr (field_block "id" (PInt 11)
                                      ++ field_block "author" (PStr "ann@example.com")
                                      ++ blocks rest))])]))].
Proof.
  destruct (X18_update_sends_id_and_author Sample.sample_upstream Sample.strict
              Sample.sample_api 5%Z 11%Z [("Title", PStr "New")]
              Sample.fresh 200%Z Outage.issue11 (PInt 11) (PStr "ann@example.com")
              [("Title", PStr "Old"); ("Severity", PStr "High")]
              eq_refl ltac:(lia) eq_refl eq_refl eq_refl)
    as (v1 & v2 & rest & Hwire & Hid & Hauthor).
  - repeat constructor; simpl; intuition discriminate.
  - repeat constructor; simpl; intuition discriminate.
  - exists rest. rewrite Hwire, (Hid eq_refl eq_refl), (Hauthor eq_refl eq_refl).
    reflexivity.
Defined.

Lemma X19_upsert_on_mapping_reply_witness :
  Api.upsert_document_property Outage.mapping_reply Sample.sample_api 5%Z "own" "x"
    Sample.fresh
  = (Raise TypeError,
     {| server_state := server_state Sample.fresh;
        wire := [request_of Sample.sample_api GET "/pro/api/document_properties"
                   (Some 5%Z) None] |})
  /\ Api.upsert_document_property Outage.mapping_reply Sample.sample_api 5%Z "client" "x"
       Sample.fresh
     = Api._request Outage.mapping_reply Sample.sample_api POST
         "/pro/api/document_properties" (Some 5%Z)
         (Some (PDict [("document_properties", PDict [("client", PStr "x")])]))
         {| server_state := server_state Sample.fresh;
            wire := [request_of Sample.sample_api GET "/pro/api/document_properties"
                       (Some 5%Z) None] |}.
Proof.
  split.
  - apply (proj1 (X19_upsert_on_mapping_reply Outage.mapping_reply Sample.sample_api 5%Z
                    "own" "x" Sample.fresh 200%Z [("owner", PStr "bob")]
                    eq_refl ltac:(lia))).
    reflexivity.
  - apply (proj2 (X19_upsert_on_mapping_reply Outage.mapping_reply Sample.sample_api 5%Z
                    "client" "x" Sample.fresh 200%Z [("owner", PStr "bob")]
                    eq_refl ltac:(lia))).
    reflexivity.
Defined.

Lemma X20_get_content_blocks_witness :
  fst (Api.get_content_blocks Outage.blocks_reply Sample.sample_api 5%Z Sample.fresh)
  = Raise (KeyError "fields").
Proof.
  rewrite (X20_get_content_blocks_projects Outage.blocks_reply Sample.sample_api 5%Z
             Sample.fresh 200%Z
             [[("id", PInt 7); ("title", PStr "Summary");
               ("fields", PDict [("Type", PStr "Exec")])];
              [("id", PInt 8); ("title", PStr "Scope")]]
             eq_refl ltac:(lia)).
  reflexivity.
Defined.

Lemma X24_load_config_witness :
  (exists rest,
     load_config (Raise ValidationError) (fun _ => None)
     = Raise (ValueError ("Missing required environment variables: "
                          ++ "DRADIS_URL, DRADIS_API_TOKEN" ++ rest)))
  /\ load_config (Raise ValidationError) (fun _ => Some "set") = Raise ValidationError
  /\ load_config (Ok Sample.sample_config) (fun _ => None) = Ok Sample.sample_config.
Proof.
  split; [|split].
  - destruct (proj1 (proj2 (X24_load_config_reports (Raise ValidationError) (fun _ => None)))
                ValidationError eq_refl) as [_ Hmissing].
    apply Hmissing. discriminate.
  - destruct (proj1 (proj2 (X24_load_config_reports (Raise ValidationError)
                              (fun _ => Some "set")))
                ValidationError eq_refl) as [Hpass _].
    apply Hpass. reflexivity.
  - apply (proj1 (X24_load_config_reports (Ok Sample.sample_config) (fun _ => None))).
    reflexivity.
Defined.
